(** * marriott-finder: the query-translation-and-filtering pipeline of server.js

    A shallow embedding of the search pipeline of [server.js]: the locale
    tables, the corrections [queryToFilter] applies to the filter the language
    model returns, the Ajv schema check, [applyFilter], and the two
    post-processing steps of the [POST /search] handler, followed by the
    properties the specification states about them.

    Conventions.
    - A JavaScript string is a [string] whose characters are the code units
      below 256 (Latin-1); [toLowerCase], [trim], [\s] and [\w] are written
      out for that range.
    - A JavaScript number is a rational [Qc]: the values JSON text denotes and
      the CSV holds.  [NaN] and the infinities appear only where the code can
      produce them from such values ([Math.min] of no arguments, [ToNumber] of
      a non-number) and are then an [option].
    - An object is the list of its own properties in enumeration order.
    - An exception is the [Throw] case of [result]; the responses the handler
      sends are logged in the state of the [Handler] monad. *)

From Stdlib Require Import String Ascii List QArith Qcanon Sorted Permutation.
From stdpp Require Import base option list strings numbers gmap sorting.

Open Scope string_scope.
Open Scope Qc_scope.

(** ** JavaScript built-ins used by the server *)

Module JS.

(** *** Characters *)

Definition code (c : ascii) : nat := nat_of_ascii c.

Definition between (lo hi n : nat) : bool := (lo <=? n)%nat && (n <=? hi)%nat.

(** Code units with a lower-case partner inside Latin-1: A-Z, and U+00C0 to
    U+00DE except the multiplication sign U+00D7. *)
Definition isUpper (c : ascii) : bool :=
  between 65 90 (code c) || (between 192 222 (code c) && negb (code c =? 215)%nat).

Definition isLower (c : ascii) : bool :=
  between 97 122 (code c) || (between 224 254 (code c) && negb (code c =? 247)%nat).

Definition lowerChar (c : ascii) : ascii :=
  if isUpper c then ascii_of_nat (code c + 32) else c.

(** [Canonicalize] of a RegExp with the [i] flag (and no [u] flag): the
    upper-case partner when it is a single code unit of the same range. *)
Definition canonicalize (c : ascii) : ascii :=
  if isLower c then ascii_of_nat (code c - 32) else c.

(** [WhiteSpace] and [LineTerminator] below 256: TAB, LF, VT, FF, CR, SP and
    NBSP.  [String.prototype.trim] and the class [\s] use the same set. *)
Definition isWhiteSpace (c : ascii) : bool :=
  between 9 13 (code c) || (code c =? 32)%nat || (code c =? 160)%nat.

(** The class [\w]: [A-Za-z0-9_]. *)
Definition isWordChar (c : ascii) : bool :=
  between 65 90 (code c) || between 97 122 (code c)
  || between 48 57 (code c) || (code c =? 95)%nat.

(** *** Strings *)

Fixpoint toLowerCase (s : string) : string :=
  match s with
  | EmptyString => EmptyString
  | String c s' => String (lowerChar c) (toLowerCase s')
  end.

(** [haystack.includes(needle)]: [needle] starts at some position. *)
Fixpoint includes (haystack needle : string) : bool :=
  String.prefix needle haystack
  || match haystack with
     | EmptyString => false
     | String _ rest => includes rest needle
     end.

Fixpoint trimStart (s : string) : string :=
  match s with
  | EmptyString => EmptyString
  | String c s' => if isWhiteSpace c then trimStart s' else s
  end.

Fixpoint trimEnd (s : string) : string :=
  match s with
  | EmptyString => EmptyString
  | String c s' =>
      match trimEnd s' with
      | EmptyString => if isWhiteSpace c then EmptyString else String c EmptyString
      | t => String c t
      end
  end.

Definition trim (s : string) : string := trimEnd (trimStart s).

(** [s.split(/\s+/)].  The pieces between maximal runs of white space,
    including the empty piece before a leading run and after a trailing one;
    the empty string splits into one empty piece.  [cur] holds the piece being
    read and [inSep] tells that the previous code unit was white space. *)
Fixpoint splitGo (inSep : bool) (cur : string) (s : string) : list string :=
  match s with
  | EmptyString => [cur]
  | String c s' =>
      if isWhiteSpace c
      then (if inSep then splitGo true EmptyString s'
            else cur :: splitGo true EmptyString s')
      else splitGo false (cur +:+ String c EmptyString) s'
  end.

Definition splitWhiteSpace (s : string) : list string := splitGo false EmptyString s.

(** The value of [Boolean(s)] for a string. *)
Definition nonEmpty (s : string) : bool :=
  match s with EmptyString => false | _ => true end.

(** *** Regular expressions of the shape [/\b(lit1|lit2|...)\b/i] *)

Definition firstChar (s : string) : option ascii :=
  match s with EmptyString => None | String c _ => Some c end.

Definition wordAt (o : option ascii) : bool :=
  match o with Some c => isWordChar c | None => false end.

(** The assertion [\b] between two neighbouring positions. *)
Definition boundary (before after : option ascii) : bool :=
  xorb (wordAt before) (wordAt after).

(** Matches the literal [lit] at the head of [s], ignoring case; returns the
    last code unit consumed (or [prev] when [lit] is empty) and the rest. *)
Fixpoint matchLiteral (lit s : string) (prev : option ascii)
  : option (option ascii * string) :=
  match lit with
  | EmptyString => Some (prev, s)
  | String p lit' =>
      match s with
      | EmptyString => None
      | String c s' =>
          if bool_decide (canonicalize p = canonicalize c)
          then matchLiteral lit' s' (Some c)
          else None
      end
  end.

(** Some alternative matches at the head of [s], between two boundaries. *)
Definition matchHere (alts : list string) (prev : option ascii) (s : string) : bool :=
  boundary prev (firstChar s)
  && existsb (λ lit,
       match matchLiteral lit s prev with
       | Some (last, rest) => boundary last (firstChar rest)
       | None => false
       end) alts.

Fixpoint testFrom (alts : list string) (prev : option ascii) (s : string) : bool :=
  matchHere alts prev s
  || match s with
     | EmptyString => false
     | String c s' => testFrom alts (Some c) s'
     end.

(** [/\b(alts)\b/i.test(s)] *)
Definition test (alts : list string) (s : string) : bool := testFrom alts None s.

(** *** Values *)

(** What [JSON.parse] returns, plus [Native]: a function or prototype object
    reached through the prototype chain of an object literal. *)
#[warning="-register-all"] Inductive value : Type :=
  | Null
  | Bool (b : bool)
  | Num (q : Qc)
  | Str (s : string)
  | Arr (items : list value)
  | Obj (props : list (string * value))
  | Native (name : string).

(** [Boolean(v)]; [None] stands for [undefined]. *)
Definition truthy (v : value) : bool :=
  match v with
  | Null => false
  | Bool b => b
  | Num q => bool_decide (q ≠ 0)
  | Str s => nonEmpty s
  | Arr _ | Obj _ | Native _ => true
  end.

Definition truthy' (o : option value) : bool :=
  match o with Some v => truthy v | None => false end.

(** *** Exceptions *)

(** A value, or an exception with its [message] (what [err.message] reads in
    a [catch]; the name of the error class is not part of it). *)
Inductive result (A : Type) : Type :=
  | Ok (a : A)
  | Throw (message : string).
Arguments Ok {A} a.
Arguments Throw {A} message.

Definition bind {A B} (m : result A) (k : A → result B) : result B :=
  match m with
  | Ok a => k a
  | Throw e => Throw e
  end.

(** *** Own properties *)

Fixpoint lookupProp (k : string) (props : list (string * value)) : option value :=
  match props with
  | [] => None
  | (k', v) :: rest => if bool_decide (k' = k) then Some v else lookupProp k rest
  end.

(** Assignment keeps the position of an existing property and appends a new
    one. *)
Fixpoint assignProp (k : string) (v : value) (props : list (string * value))
  : list (string * value) :=
  match props with
  | [] => [(k, v)]
  | (k', v') :: rest =>
      if bool_decide (k' = k) then (k, v) :: rest else (k', v') :: assignProp k v rest
  end.

Definition deleteProp (k : string) (props : list (string * value))
  : list (string * value) :=
  List.filter (λ kv, negb (bool_decide (kv.1 = k))) props.

(** [typeof v] for a value that [JSON.parse] returns. *)
Definition typeof (v : value) : string :=
  match v with
  | Bool _ => "boolean"
  | Num _ => "number"
  | Str _ => "string"
  | _ => "object"
  end.

(** [o.k] for a property name [k] that no prototype defines (every name the
    server reads from a filter is such a name). *)
Definition get (o : value) (k : string) : result (option value) :=
  match o with
  | Null => Throw ("Cannot read properties of null (reading '" +:+ k +:+ "')")
  | Obj props => Ok (lookupProp k props)
  | _ => Ok None
  end.

(** [o.k = v] in strict mode (an ES module).  A named property put on an array
    is not recorded: nothing reads it back.  The message for a primitive
    target goes on to quote the primitive ([on number '5']); it is kept up to
    the type, since the text of a number is the engine's to print. *)
Definition set (o : value) (k : string) (v : value) : result value :=
  match o with
  | Null => Throw ("Cannot set properties of null (setting '" +:+ k +:+ "')")
  | Obj props => Ok (Obj (assignProp k v props))
  | Arr items => Ok (Arr items)
  | Native name => Ok (Native name)
  | _ => Throw ("Cannot create property '" +:+ k +:+ "' on " +:+ typeof o)
  end.

(** [delete o.k] *)
Definition delete (o : value) (k : string) : result value :=
  match o with
  | Null => Throw "Cannot convert undefined or null to object"
  | Obj props => Ok (Obj (deleteProp k props))
  | _ => Ok o
  end.

(** [Math.min(...xs)]; [None] is [Infinity], the value for no arguments. *)
Definition Math_min (xs : list Qc) : option Qc :=
  foldr (λ x acc, Some (match acc with
                         | Some m => if bool_decide (x ≤ m) then x else m
                         | None => x
                         end)) None xs.

(** [xs.sort(cmp)] for a comparator that returns a number.  The sort is
    stable; for a consistent comparator every stable sort returns the same
    array, built here by insertion from the right. *)
Fixpoint sortInsert {A} (cmp : A → A → Qc) (x : A) (sorted : list A) : list A :=
  match sorted with
  | [] => [x]
  | y :: ys => if bool_decide (0 < cmp x y) then y :: sortInsert cmp x ys else x :: y :: ys
  end.

Definition sort {A} (cmp : A → A → Qc) (xs : list A) : list A :=
  foldr (sortInsert cmp) [] xs.

(** The order a comparator induces: [x] need not come after [y]. *)
Definition notAfter {A} (cmp : A → A → Qc) (x y : A) : Prop := cmp x y ≤ 0.

End JS.

Import JS.

#[global] Instance result_bind : MBind result := λ A B k m, bind m k.

(** ** Ajv: the part of JSON Schema the filter schema uses *)

Module Ajv.

Inductive jsonType : Type := TString | TNumber | TObject.

(** A schema [{ type: 'object', properties, additionalProperties }]. *)
Record schema : Type := {
  properties : list (string * jsonType);
  additionalProperties : bool
}.

(** An entry of [validate.errors]: the keyword that failed and its
    parameter. *)
Inductive errorObject : Type :=
  | WrongType (property : string) (expected : jsonType)
  | AdditionalProperty (property : string).

Definition hasType (t : jsonType) (v : value) : bool :=
  match t, v with
  | TString, Str _ => true
  | TNumber, Num _ => true
  | TObject, Obj _ => true
  | _, _ => false
  end.

Definition declared (s : schema) (k : string) : bool :=
  bool_decide (k ∈ (properties s).*1).

(** The first own property, in enumeration order, that the schema does not
    declare. *)
Definition firstAdditional (s : schema) (props : list (string * value)) : option string :=
  fst <$> List.find (λ kv, negb (declared s kv.1)) props.

(** The declared properties are checked in the order of the schema; an absent
    property passes. *)
Fixpoint checkProperties (decls : list (string * jsonType)) (props : list (string * value))
  : option errorObject :=
  match decls with
  | [] => None
  | (k, t) :: rest =>
      match lookupProp k props with
      | Some v => if hasType t v then checkProperties rest props else Some (WrongType k t)
      | None => checkProperties rest props
      end
  end.

(** [validate.errors] after a call of the compiled validator ([[]] for
    [null]).  Without [allErrors] Ajv stops at the first error: the type of the
    data, then the additional properties, then the declared ones. *)
Definition errors (s : schema) (data : value) : list errorObject :=
  match data with
  | Obj props =>
      match (if additionalProperties s then None else firstAdditional s props) with
      | Some k => [AdditionalProperty k]
      | None =>
          match checkProperties (properties s) props with
          | Some e => [e]
          | None => []
          end
      end
  | _ => [WrongType "" TObject]
  end.

(** [ajv.compile(schema)] *)
Definition compile (s : schema) (data : value) : bool :=
  match errors s data with [] => true | _ => false end.

End Ajv.

(** ** Data loading *)

(** A row of [records] after the header variants are normalised and the
    numeric strings coerced; a missing distance is loaded as [0]. *)
Record HotelRecord : Type := {
  Brand : string;
  Hotel : string;
  City : string;
  AvgPtValue : Qc;
  AvgPtsNight : Qc;
  AvgPts5Nights : Qc;
  State : string;
  DistanceKmFromAirport : Qc
}.

(** The rows of [data/hotels.csv]. *)
Class Dataset : Type := { records : list HotelRecord }.

(** What the process is given from outside: the credential, the chat
    completion ([choices[0].message.content], or the error the call throws),
    [JSON.parse] (which returns no [Native]), and [ToNumber] on strings, arrays
    and objects. *)
Class Runtime : Type := {
  openai_apiKey : option string;
  chat_completions_create : string → result string;
  JSON_parse : string → result value;
  ToNumber_other : value → result (option Qc)
}.

(** [ToNumber(v)]; [None] is [NaN]. *)
Definition ToNumber `{Runtime} (v : value) : result (option Qc) :=
  match v with
  | Num q => Ok (Some q)
  | Null => Ok (Some 0)
  | Bool b => Ok (Some (if b then 1 else 0))
  | _ => ToNumber_other v
  end.

(** [v < q] for a number [q]. *)
Definition lessThan `{Runtime} (v : value) (q : Qc) : result bool :=
  n ← ToNumber v;
  Ok (match n with Some x => bool_decide (x < q) | None => false end).

(** ** Locale tables *)

(** The state names of the dataset, lower-cased, without the empty one. *)
Definition knownStates `{Dataset} : gset string :=
  list_to_set (List.filter nonEmpty (map (λ r, toLowerCase (State r)) records)).

Definition cityAliases : list (string * string) :=
  [ ("bangalore", "bengaluru");
    ("bengaluru", "bengaluru");
    ("bombay", "mumbai");
    ("delhi", "new delhi");
    ("gurugram", "gurgaon");
    ("gurgaon", "gurgaon") ].

Fixpoint assoc (k : string) (table : list (string * string)) : option string :=
  match table with
  | [] => None
  | (k', v) :: rest => if bool_decide (k' = k) then Some v else assoc k rest
  end.

(** [cityAliases[key]]: an own property, or one of the two properties of
    [Object.prototype] whose names are lower-case. *)
Definition cityAliases_get (key : string) : option value :=
  match assoc key cityAliases with
  | Some canonical => Some (Str canonical)
  | None =>
      if bool_decide (key = "constructor") then Some (Native "Object")
      else if bool_decide (key = "__proto__") then Some (Native "Object.prototype")
      else None
  end.

Definition canonicalCity (name : value) : result value :=
  match name with
  | Str s =>
      let key := toLowerCase s in
      Ok (match cityAliases_get key with
          | Some v => if truthy v then v else name
          | None => name
          end)
  | _ => Throw "name.toLowerCase is not a function"
  end.

(** ** The filter schema *)

Definition filterSchema : Ajv.schema := {|
  Ajv.properties :=
    [ ("city", Ajv.TString);
      ("brand", Ajv.TString);
      ("state", Ajv.TString);
      ("hotel", Ajv.TString);
      ("minPtsNight", Ajv.TNumber);
      ("maxPtsNight", Ajv.TNumber);
      ("maxDistanceKm", Ajv.TNumber) ];
  Ajv.additionalProperties := false
|}.

Definition validateFilter : value → bool := Ajv.compile filterSchema.
Definition validateFilter_errors : value → list Ajv.errorObject := Ajv.errors filterSchema.

(** ** The query translator *)

(** [if (filter.city) filter.city = canonicalCity(filter.city)] *)
Definition canonicaliseCity (filter : value) : result value :=
  city ← get filter "city";
  match city with
  | Some name =>
      if truthy name
      then c ← canonicalCity name; set filter "city" c
      else Ok filter
  | None => Ok filter
  end.

(** "If the LLM put a state name into [city], correct it." *)
Definition correctState `{Dataset} (filter : value) : result value :=
  city ← get filter "city";
  state ← get filter "state";
  if truthy' city && negb (truthy' state)
  then match city with
       | Some (Str s) =>
           let maybeState := toLowerCase s in
           if bool_decide (maybeState ∈ knownStates)
           then moved ← set filter "state" (Str s); delete moved "city"
           else Ok filter
       | _ => Throw "filter.city.toLowerCase is not a function"
       end
  else Ok filter.

(** "If city is still missing but query mentions an alias, infer it." *)
Definition inferCity (query : string) (filter : value) : result value :=
  city ← get filter "city";
  if truthy' city then Ok filter
  else match List.find (λ entry, includes (toLowerCase query) entry.1) cityAliases with
       | Some (_, canonical) => set filter "city" (Str canonical)
       | None => Ok filter
       end.

(** "If the LLM produced unrealistically small point values ... drop those
    numeric filters": [if (filter.k !== undefined && filter.k < 1000) delete
    filter.k]. *)
Definition dropSmallPoints `{Runtime} (key : string) (filter : value) : result value :=
  v ← get filter key;
  match v with
  | Some v =>
      small ← lessThan v (Qc_of_Z 1000);
      if (small : bool) then delete filter key else Ok filter
  | None => Ok filter
  end.

(** The corrections applied to the parsed model output, in the order of the
    source. *)
Definition correct `{Dataset, Runtime} (query : string) (filter : value) : result value :=
  filter ← canonicaliseCity filter;
  filter ← correctState filter;
  filter ← inferCity query filter;
  filter ← dropSmallPoints "maxPtsNight" filter;
  dropSmallPoints "minPtsNight" filter.

Definition hasApiKey `{Runtime} : bool :=
  match openai_apiKey with Some key => nonEmpty key | None => false end.

Definition queryToFilter `{Dataset, Runtime} (query : string) : result value :=
  if negb hasApiKey then Throw "OPENAI_API_KEY missing"
  else
    content ← chat_completions_create query;
    filter ← JSON_parse (trim content);
    correct query filter.

(** ** The filter applier *)

Definition contains (haystack needle : string) : bool :=
  includes (toLowerCase haystack) (toLowerCase needle).

Definition containsAllTokens (text query : string) : bool :=
  let tokens := List.filter nonEmpty (splitWhiteSpace (toLowerCase query)) in
  let lower := toLowerCase text in
  forallb (λ tok, includes lower tok) tokens.

(** A text key as the guard [if (filter.k)] and the string methods see it:
    nothing for a falsy value, the text for a non-empty string.  Any other
    value has no string methods: the source throws a [TypeError] ([brand] at
    its [trim], the other keys in [containsAllTokens], as soon as there is a
    record to test), which is rendered as a [Throw] at once.  The schema
    excludes such values ([applyFilter_validated]). *)
Definition textKey (filter : value) (k : string) : result (option string) :=
  v ← get filter k;
  match v with
  | Some (Str s) => Ok (if nonEmpty s then Some s else None)
  | Some v =>
      if truthy v
      then Throw (if bool_decide (k = "brand") then "filter.brand.trim is not a function"
                  else "query.toLowerCase is not a function")
      else Ok None
  | None => Ok None
  end.

(** A numeric key as the guard [filter.k !== undefined] sees it.  A value
    that is not a number would be coerced by the comparison; the schema
    excludes it ([applyFilter_validated]) and it is rendered as a [Throw]. *)
Definition numberKey (filter : value) (k : string) : result (option Qc) :=
  v ← get filter k;
  match v with
  | Some (Num q) => Ok (Some q)
  | Some _ => Throw "not a number"
  | None => Ok None
  end.

Definition applyFilter `{Dataset} (filter : value) : result (list HotelRecord) :=
  let res := records in
  city ← textKey filter "city";
  let res :=
    match city with
    | Some city => List.filter (λ r, containsAllTokens (City r) city) res
    | None => res
    end in
  brand ← textKey filter "brand";
  let res :=
    match brand with
    | Some brand =>
        let b := toLowerCase (trim brand) in
        if negb (bool_decide (b = "marriott"))
        then List.filter (λ r, contains (Brand r) brand || contains (Hotel r) brand) res
        else res
    | None => res
    end in
  hotel ← textKey filter "hotel";
  let res :=
    match hotel with
    | Some hotel => List.filter (λ r, containsAllTokens (Hotel r) hotel) res
    | None => res
    end in
  state ← textKey filter "state";
  let res :=
    match state with
    | Some state => List.filter (λ r, containsAllTokens (State r) state) res
    | None => res
    end in
  maxPtsNight ← numberKey filter "maxPtsNight";
  let res :=
    match maxPtsNight with
    | Some m => List.filter (λ r, bool_decide (AvgPtsNight r ≤ m)) res
    | None => res
    end in
  minPtsNight ← numberKey filter "minPtsNight";
  let res :=
    match minPtsNight with
    | Some m => List.filter (λ r, bool_decide (m ≤ AvgPtsNight r)) res
    | None => res
    end in
  maxDistanceKm ← numberKey filter "maxDistanceKm";
  let res :=
    match maxDistanceKm with
    | Some m =>
        List.filter (λ r, bool_decide (DistanceKmFromAirport r ≠ 0)
                          && bool_decide (DistanceKmFromAirport r ≤ m)) res
    | None => res
    end in
  Ok res.

(** ** The Express handler *)

Inductive body : Type :=
  | Error (error : string)
  | InvalidFilter (error : string) (details : list Ajv.errorObject)
  | Results (count : nat) (data : list HotelRecord).

(** [res.status(status).json(body)] *)
Record response : Type := Json { status : nat; payload : body }.

(** [req.body], an object as [express.json()] leaves it, whose [query] field
    is text or missing. *)
Record request : Type := { query : option string }.

(** A computation that may send responses and may throw. *)
Definition Handler (A : Type) : Type := list response → list response * result A.

Definition send (r : response) : Handler unit := λ sent, ((sent ++ [r])%list, Ok tt).

Definition lift {A} (m : result A) : Handler A := λ sent, (sent, m).

Definition andThen {A B} (m : Handler A) (k : A → Handler B) : Handler B :=
  λ sent,
    match m sent with
    | (sent', Ok a) => k a sent'
    | (sent', Throw e) => (sent', Throw e)
    end.

(** [try { body } catch (err) { handler(err.message) }] *)
Definition tryCatch {A} (m : Handler A) (handler : string → Handler A) : Handler A :=
  λ sent,
    match m sent with
    | (sent', Ok a) => (sent', Ok a)
    | (sent', Throw e) => handler e sent'
    end.

#[global] Instance Handler_bind : MBind Handler := λ A B k m, andThen m k.

Definition cheapestWords : list string :=
  ["cheapest"; "lowest"; "least expensive"; "min"; "minimum"].

Definition nearestWords : list string := ["nearest"; "closest"].

(** "If the user's original query looks for the cheapest/lowest
    redemption" *)
Definition cheapest (data : list HotelRecord) : list HotelRecord :=
  let min := Math_min (map AvgPtsNight data) in
  List.filter (λ r, bool_decide (Some (AvgPtsNight r) = min)) data.

(** "Handle nearest/closest intent: sort by distance inside the already
    filtered set." *)
Definition nearest (data : list HotelRecord) : list HotelRecord :=
  take 5
    (JS.sort (λ a b, DistanceKmFromAirport a - DistanceKmFromAirport b)
       (List.filter (λ r, bool_decide (0 < DistanceKmFromAirport r)) data)).

(** "If user asked for nearest/closest, we do our own distance sort later;
    ignore any overly strict maxDistanceKm added by the LLM." *)
Definition ignoreDistanceCap (wantsNearest : bool) (filter : value) : result value :=
  if wantsNearest then delete filter "maxDistanceKm" else Ok filter.

(** [app.post('/search', ...)] *)
Definition search `{Dataset, Runtime} (req : request) : Handler unit :=
  match query req with
  | None => send (Json 400 (Error "query field required"))
  | Some query =>
      if negb (nonEmpty query)
      then send (Json 400 (Error "query field required"))
      else
        tryCatch
          (filter ← lift (queryToFilter query);
           let wantsNearest := test nearestWords query in
           filter ← lift (ignoreDistanceCap wantsNearest filter);
           if negb (validateFilter filter)
           then send (Json 422 (InvalidFilter "invalid filter generated"
                                  (validateFilter_errors filter)))
           else
             data ← lift (applyFilter filter);
             let data := if test cheapestWords query then cheapest data else data in
             let data := if wantsNearest then nearest data else data in
             send (Json 200 (Results (length data) data)))
          (λ message, send (Json 503 (Error message)))
  end.

(** The responses a request gets. *)
Definition respond `{Dataset, Runtime} (req : request) : list response :=
  (search req []).1.

(** ** The vocabulary of the specification *)

Definition textKeys : list string := ["city"; "brand"; "state"; "hotel"].
Definition numericKeys : list string := ["minPtsNight"; "maxPtsNight"; "maxDistanceKm"].
Definition whitelist : list string := textKeys ++ numericKeys.

(** The acceptance condition of the filter schema in the specification's
    words: every key is one of the seven, the text keys hold strings, the
    numeric keys hold numbers that meet [numberOk]. *)
Definition accepts (numberOk : Qc → Prop) (props : list (string * value)) : Prop :=
  (∀ k, k ∈ props.*1 → k ∈ whitelist)
  ∧ (∀ k v, k ∈ textKeys → lookupProp k props = Some v → ∃ s, v = Str s)
  ∧ (∀ k v, k ∈ numericKeys → lookupProp k props = Some v → ∃ q, v = Num q ∧ numberOk q).

(** What an entry of [validate.errors] points at in the data. *)
Definition offending (data : value) (e : Ajv.errorObject) : Prop :=
  match e with
  | Ajv.WrongType "" Ajv.TObject => ∀ props, data ≠ Obj props
  | Ajv.WrongType k t =>
      (k, t) ∈ Ajv.properties filterSchema
      ∧ ∃ props v, data = Obj props ∧ lookupProp k props = Some v ∧ Ajv.hasType t v = false
  | Ajv.AdditionalProperty k =>
      (k ∉ whitelist) ∧ ∃ props, data = Obj props ∧ k ∈ props.*1
  end.

(** [needle] occurs in [haystack] as a contiguous run of code units. *)
Definition occursIn (needle haystack : string) : Prop :=
  ∃ pre post, haystack = pre +:+ (needle +:+ post).

(** Every code unit of [s] is white space. *)
Fixpoint blank (s : string) : bool :=
  match s with
  | EmptyString => true
  | String c s' => isWhiteSpace c && blank s'
  end.

(** The predicate each key of a filter stands for (section 4.3 of the
    specification). *)
Definition cityMatches (q : string) (r : HotelRecord) : bool :=
  containsAllTokens (City r) q.
Definition hotelMatches (q : string) (r : HotelRecord) : bool :=
  containsAllTokens (Hotel r) q.
Definition stateMatches (q : string) (r : HotelRecord) : bool :=
  containsAllTokens (State r) q.
Definition brandMatches (q : string) (r : HotelRecord) : bool :=
  bool_decide (toLowerCase (trim q) = "marriott")
  || contains (Brand r) q || contains (Hotel r) q.
Definition atMostPoints (m : Qc) (r : HotelRecord) : bool :=
  bool_decide (AvgPtsNight r ≤ m).
Definition atLeastPoints (m : Qc) (r : HotelRecord) : bool :=
  bool_decide (m ≤ AvgPtsNight r).
Definition withinDistance (m : Qc) (r : HotelRecord) : bool :=
  bool_decide (0 < DistanceKmFromAirport r) && bool_decide (DistanceKmFromAirport r ≤ m).

(** What the guards of [applyFilter] make of a property that is absent or of
    its declared type: an empty string is falsy and counts as absent. *)
Definition asText (o : option value) : option string :=
  match o with
  | Some (Str s) => if nonEmpty s then Some s else None
  | _ => None
  end.

Definition asNumber (o : option value) : option Qc :=
  match o with Some (Num q) => Some q | _ => None end.

(** The step [if (present) res = res.filter(keep)] that [applyFilter] takes
    for a key, and the step it takes for [brand]. *)
Definition narrow {A} (present : option A) (keep : A → HotelRecord → bool)
    (res : list HotelRecord) : list HotelRecord :=
  match present with
  | Some a => List.filter (keep a) res
  | None => res
  end.

Definition narrowBrand (present : option string) (res : list HotelRecord)
  : list HotelRecord :=
  match present with
  | Some brand =>
      if negb (bool_decide (toLowerCase (trim brand) = "marriott"))
      then List.filter (λ r, contains (Brand r) brand || contains (Hotel r) brand) res
      else res
  | None => res
  end.

(** The predicate of a key that is present with a value of its type; an
    absent key constrains nothing. *)
Definition textConstraint (props : list (string * value)) (k : string)
    (p : string → HotelRecord → bool) (r : HotelRecord) : bool :=
  match lookupProp k props with Some (Str q) => p q r | _ => true end.

Definition numberConstraint (props : list (string * value)) (k : string)
    (p : Qc → HotelRecord → bool) (r : HotelRecord) : bool :=
  match lookupProp k props with Some (Num m) => p m r | _ => true end.

(** The distance test as the source writes it: the distance is truthy and
    within the bound. *)
Definition measuredWithin (m : Qc) (r : HotelRecord) : bool :=
  bool_decide (DistanceKmFromAirport r ≠ 0) && bool_decide (DistanceKmFromAirport r ≤ m).

(** The conjunction over the keys of a filter, for a given reading of the
    distance bound. *)
Definition satisfiesWith (distance : Qc → HotelRecord → bool)
    (props : list (string * value)) (r : HotelRecord) : bool :=
  textConstraint props "city" cityMatches r
  && textConstraint props "brand" brandMatches r
  && textConstraint props "hotel" hotelMatches r
  && textConstraint props "state" stateMatches r
  && numberConstraint props "maxPtsNight" atMostPoints r
  && numberConstraint props "minPtsNight" atLeastPoints r
  && numberConstraint props "maxDistanceKm" distance r.

Definition satisfies : list (string * value) → HotelRecord → bool :=
  satisfiesWith withinDistance.

(** The invariant of the data model: a distance is never negative. *)
Definition distancesNonNegative (rs : list HotelRecord) : Prop :=
  Forall (λ r, 0 ≤ DistanceKmFromAirport r) rs.

(** A record is among the cheapest of [data]. *)
Definition isCheapestOf (data : list HotelRecord) (r : HotelRecord) : bool :=
  forallb (λ r', bool_decide (AvgPtsNight r ≤ AvgPtsNight r')) data.

Definition byDistance (a b : HotelRecord) : Prop :=
  DistanceKmFromAirport a ≤ DistanceKmFromAirport b.

(** The two post-processing steps of the handler, in its order. *)
Definition postProcess (query : string) (data : list HotelRecord) : list HotelRecord :=
  let data := if test cheapestWords query then cheapest data else data in
  if test nearestWords query then nearest data else data.

(** The response a request is due, branch by branch of the handler. *)
Definition outcome `{Dataset, Runtime} (req : request) : response :=
  match query req with
  | None => Json 400 (Error "query field required")
  | Some query =>
      if negb (nonEmpty query) then Json 400 (Error "query field required")
      else match queryToFilter query with
           | Throw message => Json 503 (Error message)
           | Ok translated =>
               match ignoreDistanceCap (test nearestWords query) translated with
               | Throw message => Json 503 (Error message)
               | Ok filter =>
                   if negb (validateFilter filter)
                   then Json 422 (InvalidFilter "invalid filter generated"
                                    (validateFilter_errors filter))
                   else match applyFilter filter with
                        | Throw message => Json 503 (Error message)
                        | Ok data =>
                            Json 200 (Results (length (postProcess query data))
                                        (postProcess query data))
                        end
               end
           end
  end.

(** Two property lists agree on every key outside [ks]. *)
Definition agreeOutside (ks : list string) (props props' : list (string * value)) : Prop :=
  ∀ k, k ∉ ks → lookupProp k props' = lookupProp k props.

(** ** A small dataset and scripted collaborators *)

Definition row (brand name city state : string) (points : Z) (km : Q) : HotelRecord :=
  {| Brand := brand; Hotel := name; City := city; AvgPtValue := 0;
     AvgPtsNight := Qc_of_Z points; AvgPts5Nights := Qc_of_Z (5 * points);
     State := state; DistanceKmFromAirport := Q2Qc km |}.

Definition westinGurgaon : HotelRecord :=
  row "Westin" "The Westin Gurgaon" "New Delhi" "Haryana" 30000 (125 # 10).
Definition courtyardGurugram : HotelRecord :=
  row "Courtyard" "Courtyard by Marriott Gurugram" "Gurgaon" "Haryana" 25000 0.
Definition jwAerocity : HotelRecord :=
  row "JW Marriott" "JW Marriott Hotel New Delhi Aerocity" "New Delhi" "Delhi" 25000 (21 # 10).
Definition meridienGoa : HotelRecord :=
  row "Le Meridien" "Le Meridien Goa Calangute" "Goa" "Goa" 40000 40.

Definition sampleRecords : list HotelRecord :=
  [westinGurgaon; courtyardGurugram; jwAerocity; meridienGoa].

Definition sampleData : Dataset := {| records := sampleRecords |}.

(** A runtime with a credential whose model answers [content], parsed as
    [parsed]. *)
Definition scripted (content : string) (parsed : value) : Runtime :=
  {| openai_apiKey := Some "sk-test";
     chat_completions_create := λ _, Ok content;
     JSON_parse := λ _, Ok parsed;
     ToNumber_other := λ _, Ok None |}.

(** ** Parts of the loader and of the page *)

(** The class [[0-9.]] of the loader's [clean]. *)
Definition isNumericChar (c : ascii) : bool :=
  between 48 57 (code c) || (code c =? 46)%nat.

(** [s.replace(/[^0-9.]/g, '')] *)
Fixpoint stripNonNumeric (s : string) : string :=
  match s with
  | EmptyString => EmptyString
  | String c s' =>
      if isNumericChar c then String c (stripNonNumeric s') else stripNonNumeric s'
  end.

(** [String(s)] for a CSV field: the text, or "undefined" for a missing
    column. *)
Definition String_ (s : option string) : string :=
  match s with Some text => text | None => "undefined" end.

(** [const clean = s => Number(String(s).replace(/[^0-9.]/g, ''))] *)
Definition clean `{Runtime} (s : option string) : result (option Qc) :=
  ToNumber (Str (stripNonNumeric (String_ s))).

(** The submit handler of [public/app.js] up to its [fetch]: the body it
    posts to [/search], or nothing for an input that is blank. *)
Definition submitted (input : string) : option request :=
  let query := trim input in
  if negb (nonEmpty query) then None else Some {| query := Some query |}.

(** * Properties *)

(** Membership of a key in a list of keys, both given in full, by
    evaluation. *)
Ltac key_solver := by (apply (bool_decide_unpack _); vm_compute).

(** ** Strings *)

Example splitWhiteSpace_ex1 : splitWhiteSpace " new  delhi " = [""; "new"; "delhi"; ""].
Proof. reflexivity. Qed.
Example test_ex1 : test ["min"; "minimum"] "the Minimum, please" = true.
Proof. reflexivity. Qed.
Example test_ex2 : test ["min"; "minimum"] "5 mins" = false.
Proof. reflexivity. Qed.
Example trim_ex1 : trim "  Marriott " = "Marriott".
Proof. reflexivity. Qed.
Example sort_ex1 : sort (λ a b, a - b) [Q2Qc 3; Q2Qc 1; Q2Qc 2] = [Q2Qc 1; Q2Qc 2; Q2Qc 3].
Proof. vm_compute. reflexivity. Qed.

Section Strings.

Lemma prefix_empty (s : string) : String.prefix "" s = true.
Proof. by destruct s. Qed.

Lemma includes_empty (s : string) : includes s "" = true.
Proof. destruct s; simpl; by rewrite ?prefix_empty. Qed.

Lemma prefix_occurs (n h : string) :
  String.prefix n h = true ↔ ∃ post, h = n +:+ post.
Proof.
  revert h. induction n as [|c n IH]; intros [|d h]; simpl.
  - split; [intros _; by exists "" | done].
  - split; [intros _; by exists (String d h) | done].
  - split; [done | intros [post ?]; discriminate].
  - destruct (Ascii.ascii_dec c d) as [->|Hne].
    + rewrite IH. split; intros [post Hp]; exists post; [by rewrite Hp | by injection Hp].
    + split; [done | intros [post Hp]; injection Hp; congruence].
Qed.

(** [includes] decides occurrence as a substring. *)
Lemma includes_occurs (h n : string) : includes h n = true ↔ occursIn n h.
Proof.
  induction h as [|c h IH]; cbn [includes].
  - rewrite orb_false_r, prefix_occurs. split.
    + intros [post Hp]. by exists "", post.
    + intros [pre [post Hp]]. destruct pre; simpl in Hp; [by exists post | discriminate].
  - rewrite orb_true_iff, prefix_occurs, IH. split.
    + intros [[post Hp]|[pre [post Hp]]].
      * by exists "", post.
      * exists (String c pre), post. simpl. by rewrite Hp.
    + intros [pre [post Hp]]. destruct pre as [|d pre]; simpl in Hp.
      * left. by exists post.
      * right. exists pre, post. by injection Hp.
Qed.

Lemma lowerChar_whiteSpace (c : ascii) : isWhiteSpace c = true → lowerChar c = c.
Proof.
  destruct c as [[] [] [] [] [] [] [] []]; vm_compute; congruence.
Qed.

Lemma toLowerCase_blank (s : string) : blank s = true → toLowerCase s = s.
Proof.
  induction s as [|c s IH]; simpl; [done|].
  rewrite andb_true_iff. intros [Hc Hs]. by rewrite lowerChar_whiteSpace, IH.
Qed.

(** White space alone splits into empty pieces. *)
Lemma splitGo_blank (inSep : bool) (s : string) :
  blank s = true → List.filter nonEmpty (splitGo inSep "" s) = [].
Proof.
  revert inSep. induction s as [|c s IH]; intros inSep; simpl; [done|].
  rewrite andb_true_iff. intros [-> Hs]. destruct inSep; simpl; by rewrite IH.
Qed.

Lemma containsAllTokens_blank (text q : string) :
  blank q = true → containsAllTokens text q = true.
Proof.
  intros Hq. unfold containsAllTokens, splitWhiteSpace.
  rewrite (toLowerCase_blank q) by done. by rewrite splitGo_blank.
Qed.

Lemma toLowerCase_nonEmpty (s : string) : nonEmpty (toLowerCase s) = nonEmpty s.
Proof. by destruct s. Qed.

End Strings.

(** ** Arrays *)

Section Arrays.
Context {A : Type}.
Implicit Types (f g : A → bool) (l : list A).

Lemma filter_sublist f l : List.filter f l `sublist_of` l.
Proof.
  induction l as [|x l IH]; simpl; [constructor|].
  destruct (f x); by constructor.
Qed.

Lemma filter_filter f g l :
  List.filter g (List.filter f l) = List.filter (λ x, f x && g x) l.
Proof.
  induction l as [|x l IH]; simpl; [done|].
  destruct (f x); simpl; [destruct (g x)|]; by rewrite IH.
Qed.

Lemma filter_all f l : (∀ x, f x = true) → List.filter f l = l.
Proof.
  intros Hf. induction l as [|x l IH]; simpl; [done|]. by rewrite Hf, IH.
Qed.

Lemma filter_ext_on f g l :
  (∀ x, x ∈ l → f x = g x) → List.filter f l = List.filter g l.
Proof.
  intros Hfg. apply filter_ext_in. intros x Hx. apply Hfg. by apply list_elem_of_In.
Qed.

Lemma elem_of_filter f l x : x ∈ List.filter f l ↔ x ∈ l ∧ f x = true.
Proof. by rewrite !list_elem_of_In, filter_In. Qed.

Lemma Forall_sublist (P : A → Prop) l k :
  l `sublist_of` k → Forall P k → Forall P l.
Proof.
  induction 1; inversion_clear 1; try constructor; auto.
Qed.

Lemma StronglySorted_sublist (R : relation A) l k :
  l `sublist_of` k → StronglySorted R k → StronglySorted R l.
Proof.
  induction 1 as [|x l k Hlk IH|x l k Hlk IH]; intros Hk.
  - constructor.
  - inversion_clear Hk as [|? ? Hs Hall]. constructor; [by apply IH|].
    by eapply Forall_sublist.
  - inversion_clear Hk. by apply IH.
Qed.

Lemma StronglySorted_mono (R R' : relation A) l :
  (∀ x y, R x y → R' x y) → StronglySorted R l → StronglySorted R' l.
Proof.
  intros HR. induction 1 as [|x l Hs IH Hall]; constructor; [done|].
  eapply Forall_impl; [exact Hall | auto].
Qed.

(** *** [Array.prototype.sort] *)

Variable cmp : A → A → Qc.

Lemma sortInsert_Permutation x l : sortInsert cmp x l ≡ₚ x :: l.
Proof.
  induction l as [|y l IH]; simpl; [done|].
  case_bool_decide; [|done]. rewrite IH. apply perm_swap.
Qed.

Lemma sort_Permutation l : JS.sort cmp l ≡ₚ l.
Proof.
  induction l as [|x l IH]; simpl; [done|].
  by rewrite sortInsert_Permutation, IH.
Qed.

Local Abbreviation notAfter := (JS.notAfter cmp).

Hypothesis cmp_flip : ∀ x y, 0 < cmp x y → cmp y x ≤ 0.
Hypothesis cmp_trans : ∀ x y z, cmp x y ≤ 0 → cmp y z ≤ 0 → cmp x z ≤ 0.

Lemma sortInsert_StronglySorted x l :
  StronglySorted notAfter l → StronglySorted notAfter (sortInsert cmp x l).
Proof.
  induction 1 as [|y l Hs IH Hall]; simpl.
  - repeat constructor.
  - case_bool_decide as Hxy.
    + constructor; [done|].
      rewrite sortInsert_Permutation. constructor; [by apply cmp_flip | done].
    + apply Qcnot_lt_le in Hxy. constructor; [by constructor|].
      constructor; [done|].
      eapply Forall_impl; [exact Hall|]. intros z Hz. by eapply cmp_trans.
Qed.

Lemma sort_StronglySorted l : StronglySorted notAfter (JS.sort cmp l).
Proof.
  induction l as [|x l IH]; simpl; [constructor | by apply sortInsert_StronglySorted].
Qed.

End Arrays.

(** *** [Math.min] *)

Lemma Math_min_nil (xs : list Qc) : Math_min xs = None ↔ xs = [].
Proof. by destruct xs. Qed.

Lemma Math_min_least (xs : list Qc) (m : Qc) :
  Math_min xs = Some m → m ∈ xs ∧ ∀ x, x ∈ xs → m ≤ x.
Proof.
  revert m. induction xs as [|x xs IH]; intros m; simpl; [done|].
  destruct (Math_min xs) as [m'|] eqn:Hm'.
  - destruct (IH m' eq_refl) as [Hin Hle].
    case_bool_decide as Hx; intros [= <-].
    + split; [left|]. intros y [->|Hy]%elem_of_cons; [apply Qcle_refl|].
      eapply Qcle_trans; [exact Hx | by apply Hle].
    + split; [by right|]. intros y [->|Hy]%elem_of_cons; [|by apply Hle].
      apply Qclt_le_weak. by apply Qcnot_le_lt.
  - apply Math_min_nil in Hm' as ->. intros [= <-].
    split; [left|]. intros y [->|Hy]%elem_of_cons; [apply Qcle_refl | by inversion Hy].
Qed.

(** ** Own properties *)

Section Props.
Implicit Types (k : string) (v : value) (props : list (string * value)).

Lemma lookupProp_assignProp k k' v props :
  lookupProp k' (assignProp k v props) = if bool_decide (k = k') then Some v else lookupProp k' props.
Proof.
  induction props as [|[k0 v0] props IH]; simpl.
  - by repeat case_bool_decide.
  - destruct (decide (k0 = k)) as [->|Hne].
    + rewrite bool_decide_eq_true_2 by done. simpl. by repeat case_bool_decide.
    + rewrite (bool_decide_eq_false_2 (k0 = k)) by done. simpl. rewrite IH.
      repeat case_bool_decide; by simplify_eq.
Qed.

Lemma lookupProp_deleteProp k k' props :
  lookupProp k' (deleteProp k props) = if bool_decide (k = k') then None else lookupProp k' props.
Proof.
  unfold deleteProp. induction props as [|[k0 v0] props IH]; simpl.
  - by case_bool_decide.
  - destruct (decide (k0 = k)) as [->|Hne].
    + rewrite bool_decide_eq_true_2 by done. simpl. rewrite IH.
      repeat case_bool_decide; by simplify_eq.
    + rewrite (bool_decide_eq_false_2 (k0 = k)) by done. simpl. rewrite IH.
      repeat case_bool_decide; by simplify_eq.
Qed.

Lemma lookupProp_Some_key k v props : lookupProp k props = Some v → k ∈ props.*1.
Proof.
  induction props as [|[k0 v0] props IH]; simpl; [done|].
  case_bool_decide; [subst; intros _; left | intros ?; right; by apply IH].
Qed.

Lemma lookupProp_key k props : k ∈ props.*1 → is_Some (lookupProp k props).
Proof.
  induction props as [|[k0 v0] props IH]; simpl; [by inversion 1|].
  case_bool_decide; [by eexists|]. intros [?|?]%elem_of_cons; [by simplify_eq | by apply IH].
Qed.

End Props.

(** ** The schema validator *)

Section Validator.
Implicit Types (k : string) (v : value) (props : list (string * value)).

Lemma firstAdditional_None s props :
  Ajv.firstAdditional s props = None ↔ ∀ k, k ∈ props.*1 → Ajv.declared s k = true.
Proof.
  unfold Ajv.firstAdditional. induction props as [|[k0 v0] props IH]; simpl.
  - split; [by inversion 2 | done].
  - destruct (Ajv.declared s k0) eqn:Hk0; simpl.
    + rewrite IH. split.
      * intros Hall k [->|?]%elem_of_cons; auto.
      * intros Hall k ?. apply Hall. by right.
    + split; [done|]. intros Hall. specialize (Hall k0 ltac:(left)). congruence.
Qed.

Lemma firstAdditional_Some s props k :
  Ajv.firstAdditional s props = Some k → k ∈ props.*1 ∧ Ajv.declared s k = false.
Proof.
  unfold Ajv.firstAdditional. induction props as [|[k0 v0] props IH]; simpl; [done|].
  destruct (Ajv.declared s k0) eqn:Hk0; simpl.
  - intros [? ?]%IH. split; [by right | done].
  - intros [= <-]. split; [left | done].
Qed.

Lemma checkProperties_None decls props :
  Ajv.checkProperties decls props = None
  ↔ ∀ k t v, (k, t) ∈ decls → lookupProp k props = Some v → Ajv.hasType t v = true.
Proof.
  induction decls as [|[k0 t0] decls IH]; simpl.
  - split; [by inversion 2 | done].
  - destruct (lookupProp k0 props) as [v0|] eqn:Hv0.
    + destruct (Ajv.hasType t0 v0) eqn:Ht0.
      * rewrite IH. split.
        -- intros Hall k t v [[= -> ->]|?]%elem_of_cons Hk; [congruence | eauto].
        -- intros Hall k t v ? ?. eapply Hall; [by right | done].
      * split; [done|]. intros Hall.
        specialize (Hall k0 t0 v0 ltac:(left) Hv0). congruence.
    + rewrite IH. split.
      * intros Hall k t v [[= -> ->]|?]%elem_of_cons Hk; [congruence | eauto].
      * intros Hall k t v ? ?. eapply Hall; [by right | done].
Qed.

Lemma checkProperties_Some decls props e :
  Ajv.checkProperties decls props = Some e
  → ∃ k t v, e = Ajv.WrongType k t ∧ (k, t) ∈ decls
             ∧ lookupProp k props = Some v ∧ Ajv.hasType t v = false.
Proof.
  induction decls as [|[k0 t0] decls IH]; simpl; [done|].
  destruct (lookupProp k0 props) as [v0|] eqn:Hv0.
  - destruct (Ajv.hasType t0 v0) eqn:Ht0.
    + intros (k & t & v & -> & ? & ? & ?)%IH. exists k, t, v. split_and!; [done|by right|done..].
    + intros [= <-]. exists k0, t0, v0. split_and!; [done|left|done..].
  - intros (k & t & v & -> & ? & ? & ?)%IH. exists k, t, v. split_and!; [done|by right|done..].
Qed.

Lemma declared_whitelist k : Ajv.declared filterSchema k = true ↔ k ∈ whitelist.
Proof. unfold Ajv.declared. by rewrite bool_decide_eq_true. Qed.

Lemma textKeys_declared k : k ∈ textKeys ↔ (k, Ajv.TString) ∈ Ajv.properties filterSchema.
Proof.
  unfold textKeys. simpl. rewrite !elem_of_cons, !elem_of_nil.
  intuition (simplify_eq; auto).
Qed.

Lemma numericKeys_declared k : k ∈ numericKeys ↔ (k, Ajv.TNumber) ∈ Ajv.properties filterSchema.
Proof.
  unfold numericKeys. simpl. rewrite !elem_of_cons, !elem_of_nil.
  intuition (simplify_eq; auto).
Qed.

Lemma declared_type k t :
  (k, t) ∈ Ajv.properties filterSchema
  → (t = Ajv.TString ∧ k ∈ textKeys) ∨ (t = Ajv.TNumber ∧ k ∈ numericKeys).
Proof.
  unfold textKeys, numericKeys. simpl. rewrite !elem_of_cons, !elem_of_nil.
  intuition (simplify_eq; auto 10).
Qed.

Lemma hasType_string v : Ajv.hasType Ajv.TString v = true ↔ ∃ s, v = Str s.
Proof. destruct v; simpl; split; (try done); (try by intros [? ?]); eauto. Qed.

Lemma hasType_number v : Ajv.hasType Ajv.TNumber v = true ↔ ∃ q, v = Num q.
Proof. destruct v; simpl; split; (try done); (try by intros [? ?]); eauto. Qed.

(** The validator accepts an object exactly when its keys are among the seven
    and each holds a value of its declared type. *)
Lemma validateFilter_accepts props :
  validateFilter (Obj props) = true ↔ accepts (λ _, True) props.
Proof.
  unfold validateFilter, Ajv.compile, Ajv.errors, accepts.
  change (Ajv.additionalProperties filterSchema) with false. cbv iota.
  destruct (Ajv.firstAdditional filterSchema props) as [k0|] eqn:Hadd.
  - split; [done|]. intros (Hkeys & _ & _).
    apply firstAdditional_Some in Hadd as [Hin Hnot].
    apply Hkeys, declared_whitelist in Hin. congruence.
  - rewrite firstAdditional_None in Hadd.
    destruct (Ajv.checkProperties (Ajv.properties filterSchema) props) as [e|] eqn:Hchk.
    + split; [done|]. intros (_ & Htext & Hnum).
      apply checkProperties_Some in Hchk as (k & t & v & -> & Hkt & Hv & Hty).
      destruct (declared_type _ _ Hkt) as [[-> Hk]|[-> Hk]].
      * destruct (Htext k v Hk Hv) as [s ->]. done.
      * destruct (Hnum k v Hk Hv) as (q & -> & _). done.
    + rewrite checkProperties_None in Hchk. split; [intros _|done]. split_and!.
      * intros k Hk. by apply declared_whitelist, Hadd.
      * intros k v Hk%textKeys_declared Hv. by apply hasType_string, (Hchk k _ v).
      * intros k v Hk%numericKeys_declared Hv.
        destruct (proj1 (hasType_number v) (Hchk k _ v Hk Hv)) as [q ->]. by exists q.
Qed.

(** A rejected value gets exactly one error, which points at what is wrong
    with it. *)
Lemma validateFilter_rejects data :
  validateFilter data = false
  → ∃ e, validateFilter_errors data = [e] ∧ offending data e.
Proof.
  unfold validateFilter, validateFilter_errors, Ajv.compile, Ajv.errors.
  change (Ajv.additionalProperties filterSchema) with false. cbv iota.
  destruct data as [| | | | |props|]; try (intros _; eexists; split; [done|]; by intros ?).
  destruct (Ajv.firstAdditional filterSchema props) as [k0|] eqn:Hadd.
  - intros _. eexists; split; [done|]. simpl.
    apply firstAdditional_Some in Hadd as [Hin Hnot]. split.
    + intros Hk%declared_whitelist. congruence.
    + by exists props.
  - destruct (Ajv.checkProperties (Ajv.properties filterSchema) props) as [e|] eqn:Hchk; [|done].
    intros _. eexists; split; [done|].
    apply checkProperties_Some in Hchk as (k & t & v & -> & Hkt & Hv & Hty).
    assert (Hoff : (k, t) ∈ Ajv.properties filterSchema
                   ∧ ∃ props' v', Obj props = Obj props' ∧ lookupProp k props' = Some v'
                                  ∧ Ajv.hasType t v' = false)
      by (split; [done | by exists props, v]).
    destruct (declared_type _ _ Hkt) as [[-> Hk]|[-> Hk]]; simpl;
      destruct k; try done;
      unfold textKeys, numericKeys in Hk;
      rewrite !elem_of_cons, elem_of_nil in Hk; intuition (simplify_eq; auto).
Qed.

End Validator.

(** ** The filter applier *)

Section Applier.
Context `{Dataset}.
Implicit Types (k : string) (props : list (string * value)) (res : list HotelRecord).

(** [applyFilter] as a chain of narrowing steps. *)
Lemma applyFilter_steps (filter : value) :
  applyFilter filter =
    city ← textKey filter "city";
    brand ← textKey filter "brand";
    hotel ← textKey filter "hotel";
    state ← textKey filter "state";
    maxPtsNight ← numberKey filter "maxPtsNight";
    minPtsNight ← numberKey filter "minPtsNight";
    maxDistanceKm ← numberKey filter "maxDistanceKm";
    Ok (narrow maxDistanceKm measuredWithin
          (narrow minPtsNight atLeastPoints
             (narrow maxPtsNight atMostPoints
                (narrow state stateMatches
                   (narrow hotel hotelMatches
                      (narrowBrand brand
                         (narrow city cityMatches records))))))).
Proof. reflexivity. Qed.

Lemma narrow_filter {A} (o : option A) (keep : A → HotelRecord → bool) res :
  narrow o keep res = List.filter (λ r, from_option (λ a, keep a r) true o) res.
Proof. destruct o; simpl; [done|]. by rewrite filter_all. Qed.

Lemma brandMatches_empty r : brandMatches "" r = true.
Proof.
  unfold brandMatches, contains. change (toLowerCase "") with "".
  by rewrite !includes_empty, orb_true_r.
Qed.

Lemma narrowBrand_filter (o : option string) res :
  narrowBrand o res = List.filter (λ r, from_option (λ b, brandMatches b r) true o) res.
Proof.
  destruct o as [b|]; simpl; [|by rewrite filter_all].
  unfold brandMatches. case_bool_decide; simpl; [by rewrite filter_all|done].
Qed.

Lemma textConstraint_asText props k (p : string → HotelRecord → bool) r :
  p "" r = true →
  from_option (λ q, p q r) true (asText (lookupProp k props)) = textConstraint props k p r.
Proof.
  intros Hp. unfold textConstraint. destruct (lookupProp k props) as [[]|]; simpl; try done.
  by destruct s.
Qed.

Lemma numberConstraint_asNumber props k (p : Qc → HotelRecord → bool) r :
  from_option (λ m, p m r) true (asNumber (lookupProp k props)) = numberConstraint props k p r.
Proof. unfold numberConstraint. by destruct (lookupProp k props) as [[]|]. Qed.

Lemma textKey_accepted props k :
  accepts (λ _, True) props → k ∈ textKeys →
  textKey (Obj props) k = Ok (asText (lookupProp k props)).
Proof.
  intros (_ & Htext & _) Hk. unfold textKey. simpl.
  destruct (lookupProp k props) as [v|] eqn:Hv; [|done].
  by destruct (Htext k v Hk Hv) as [s ->].
Qed.

Lemma numberKey_accepted props k :
  accepts (λ _, True) props → k ∈ numericKeys →
  numberKey (Obj props) k = Ok (asNumber (lookupProp k props)).
Proof.
  intros (_ & _ & Hnum) Hk. unfold numberKey. simpl.
  destruct (lookupProp k props) as [v|] eqn:Hv; [|done].
  by destruct (Hnum k v Hk Hv) as (q & -> & _).
Qed.

Lemma tokens_empty text : containsAllTokens text "" = true.
Proof. by apply containsAllTokens_blank. Qed.

Lemma applyFilter_accepted props :
  accepts (λ _, True) props →
  applyFilter (Obj props) = Ok (List.filter (satisfiesWith measuredWithin props) records).
Proof.
  intros Hacc. rewrite applyFilter_steps.
  rewrite !(textKey_accepted props) by (done || key_solver).
  rewrite !(numberKey_accepted props) by (done || key_solver).
  simpl. rewrite !narrow_filter, narrowBrand_filter, !filter_filter.
  f_equal. apply filter_ext_on. intros r _. unfold satisfiesWith.
  rewrite <- !textConstraint_asText, <- !numberConstraint_asNumber
    by (apply tokens_empty || apply brandMatches_empty).
  by rewrite !andb_assoc.
Qed.

(** Only the seven keys are read. *)
Lemma applyFilter_ext props props' :
  (∀ k, k ∈ whitelist → lookupProp k props = lookupProp k props') →
  applyFilter (Obj props) = applyFilter (Obj props').
Proof.
  intros Heq. rewrite !applyFilter_steps. unfold textKey, numberKey, get.
  assert (Hk : ∀ k, k ∈ whitelist →
    (Ok (lookupProp k props) : result _) = Ok (lookupProp k props'))
    by (intros k Hk; by rewrite Heq).
  rewrite !Hk by key_solver.
  done.
Qed.

Lemma keys_deleteProp k k' props : k' ∈ (deleteProp k props).*1 → k' ∈ props.*1.
Proof.
  intros [[k0 v0] [-> Hin]]%list_elem_of_fmap. apply list_elem_of_fmap.
  exists (k0, v0). split; [done|]. unfold deleteProp in Hin.
  by apply elem_of_filter in Hin as [? _].
Qed.

Lemma accepts_deleteProp (ok : Qc → Prop) k props :
  accepts ok props → accepts ok (deleteProp k props).
Proof.
  intros (Hkeys & Htext & Hnum). split_and!.
  - intros k' Hk'. by apply Hkeys, (keys_deleteProp k).
  - intros k' v Hk'. rewrite lookupProp_deleteProp. case_bool_decide; [done|]. by apply Htext.
  - intros k' v Hk'. rewrite lookupProp_deleteProp. case_bool_decide; [done|]. by apply Hnum.
Qed.

Lemma textConstraint_deleteProp k k' props p r :
  textConstraint (deleteProp k props) k' p r
  = if bool_decide (k = k') then true else textConstraint props k' p r.
Proof.
  unfold textConstraint. rewrite lookupProp_deleteProp. by case_bool_decide.
Qed.

Lemma numberConstraint_deleteProp k k' props p r :
  numberConstraint (deleteProp k props) k' p r
  = if bool_decide (k = k') then true else numberConstraint props k' p r.
Proof.
  unfold numberConstraint. rewrite lookupProp_deleteProp. by case_bool_decide.
Qed.

(** On a measured (non-negative) distance, truthy means positive. *)
Lemma measuredWithin_withinDistance m r :
  0 ≤ DistanceKmFromAirport r → measuredWithin m r = withinDistance m r.
Proof.
  intros Hr. unfold measuredWithin, withinDistance. f_equal.
  apply bool_decide_ext. split.
  - intros Hne. apply Qcnot_le_lt. intros Hle. apply Hne. by apply Qcle_antisym.
  - intros Hlt Heq. apply (Qclt_not_le _ _ Hlt). rewrite Heq. apply Qcle_refl.
Qed.

Lemma satisfies_measured props :
  distancesNonNegative records →
  List.filter (satisfiesWith measuredWithin props) records = List.filter (satisfies props) records.
Proof.
  intros Hnn. apply filter_ext_on. intros r Hr.
  unfold satisfies, satisfiesWith, numberConstraint. f_equal.
  destruct (lookupProp "maxDistanceKm" props) as [[]|]; try done.
  apply measuredWithin_withinDistance.
  unfold distancesNonNegative in Hnn. rewrite Forall_forall in Hnn. by apply Hnn.
Qed.

End Applier.

(** ** The query translator *)

Section Translator.
Context `{Dataset, Runtime}.
Implicit Types (k : string) (props raw : list (string * value)) (out : value).

Lemma knownStates_nonEmpty (s : string) : s ∈ knownStates → nonEmpty s = true.
Proof.
  unfold knownStates. rewrite elem_of_list_to_set, elem_of_filter. by intros [_ ?].
Qed.

(** The correction of a state name found under [city]. *)
Lemma correctState_moves props (s : string) :
  lookupProp "city" props = Some (Str s) →
  truthy' (lookupProp "state" props) = false →
  toLowerCase s ∈ knownStates →
  correctState (Obj props)
  = Ok (Obj (deleteProp "city" (assignProp "state" (Str s) props))).
Proof.
  intros Hcity Hstate Hknown. unfold correctState. simpl.
  rewrite Hcity, Hstate. simpl.
  apply knownStates_nonEmpty in Hknown as Hne. rewrite toLowerCase_nonEmpty in Hne.
  rewrite Hne. simpl. by rewrite bool_decide_eq_true_2.
Qed.

Lemma agreeOutside_refl ks props : agreeOutside ks props props.
Proof. by intros k _. Qed.

Lemma agreeOutside_trans ks ks' props props' props'' :
  agreeOutside ks props props' → agreeOutside ks' props' props'' →
  agreeOutside (ks ++ ks') props props''.
Proof.
  intros H1 H2 k Hk. rewrite not_elem_of_app in Hk. destruct Hk.
  by rewrite H2, H1.
Qed.

Lemma agreeOutside_assign k v props : agreeOutside [k] props (assignProp k v props).
Proof.
  intros k' Hk'. rewrite lookupProp_assignProp. case_bool_decide; [|done].
  subst. exfalso. apply Hk'. left.
Qed.

Lemma agreeOutside_delete k props : agreeOutside [k] props (deleteProp k props).
Proof.
  intros k' Hk'. rewrite lookupProp_deleteProp. case_bool_decide; [|done].
  subst. exfalso. apply Hk'. left.
Qed.

Lemma canonicaliseCity_Obj props out :
  canonicaliseCity (Obj props) = Ok out →
  ∃ props', out = Obj props' ∧ agreeOutside ["city"] props props'.
Proof.
  unfold canonicaliseCity. simpl.
  destruct (lookupProp "city" props) as [name|];
    [|intros [= <-]; eexists; split; [done | apply agreeOutside_refl]].
  destruct (truthy name);
    [|intros [= <-]; eexists; split; [done | apply agreeOutside_refl]].
  destruct (canonicalCity name) as [c|e]; simpl; [|done].
  intros [= <-]. eexists; split; [done | apply agreeOutside_assign].
Qed.

Lemma correctState_Obj props out :
  correctState (Obj props) = Ok out →
  ∃ props', out = Obj props' ∧ agreeOutside ["state"; "city"] props props'.
Proof.
  unfold correctState. simpl.
  destruct (truthy' (lookupProp "city" props) && negb (truthy' (lookupProp "state" props)));
    [|intros [= <-]; eexists; split; [done | apply agreeOutside_refl]].
  destruct (lookupProp "city" props) as [[]|]; try done.
  case_bool_decide; simpl;
    [|intros [= <-]; eexists; split; [done | apply agreeOutside_refl]].
  intros [= <-]. eexists; split; [done|].
  apply (agreeOutside_trans ["state"] ["city"] _ (assignProp "state" (Str s) props));
    [apply agreeOutside_assign | apply agreeOutside_delete].
Qed.

Lemma inferCity_Obj (q : string) props out :
  inferCity q (Obj props) = Ok out →
  ∃ props', out = Obj props' ∧ agreeOutside ["city"] props props'.
Proof.
  unfold inferCity, get, mbind, result_bind, bind.
  destruct (truthy' (lookupProp "city" props));
    [intros [= <-]; eexists; split; [done | apply agreeOutside_refl]|].
  match goal with
  | |- context [List.find ?f cityAliases] =>
      destruct (List.find f cityAliases) as [[alias canonical]|]; simpl
  end.
  - intros [= <-]. eexists; split; [done | apply agreeOutside_assign].
  - intros [= <-]. eexists; split; [done | apply agreeOutside_refl].
Qed.

(** What the numeric-sanity correction does to its key. *)
Lemma dropSmallPoints_Obj key props out :
  dropSmallPoints key (Obj props) = Ok out →
  ∃ props', out = Obj props'
    ∧ agreeOutside [key] props props'
    ∧ (lookupProp key props = None → lookupProp key props' = None)
    ∧ (∀ q, lookupProp key props = Some (Num q) →
            lookupProp key props'
            = if bool_decide (q < Qc_of_Z 1000) then None else Some (Num q)).
Proof.
  unfold dropSmallPoints. simpl.
  destruct (lookupProp key props) as [v|] eqn:Hv.
  - destruct (lessThan v (Qc_of_Z 1000)) as [[]|e] eqn:Hlt; simpl; [| |done].
    + intros [= <-]. eexists; split_and!; [done|apply agreeOutside_delete|done|].
      intros q [= ->]. unfold lessThan in Hlt. simpl in Hlt. injection Hlt as ->.
      rewrite lookupProp_deleteProp. by rewrite bool_decide_eq_true_2.
    + intros [= <-]. eexists; split_and!; [done|apply agreeOutside_refl|done|].
      intros q [= ->]. unfold lessThan in Hlt. simpl in Hlt. injection Hlt as ->. done.
  - intros [= <-]. eexists; split_and!; [done|apply agreeOutside_refl|done|done].
Qed.

(** The corrections keep an object an object, leave every key but the four
    they own alone, and settle the two point bounds. *)
Lemma correct_Obj (query : string) raw out :
  correct query (Obj raw) = Ok out →
  ∃ props, out = Obj props
    ∧ agreeOutside ["city"; "state"; "maxPtsNight"; "minPtsNight"] raw props
    ∧ ∀ k, k ∈ ["maxPtsNight"; "minPtsNight"] →
        (lookupProp k raw = None → lookupProp k props = None)
        ∧ (∀ q, lookupProp k raw = Some (Num q) →
                lookupProp k props
                = if bool_decide (q < Qc_of_Z 1000) then None else Some (Num q)).
Proof.
  unfold correct, mbind, result_bind, bind.
  destruct (canonicaliseCity (Obj raw)) as [f1|] eqn:H1; [|done].
  apply canonicaliseCity_Obj in H1 as (p1 & -> & A1).
  destruct (correctState (Obj p1)) as [f2|] eqn:H2; [|done].
  apply correctState_Obj in H2 as (p2 & -> & A2).
  destruct (inferCity query (Obj p2)) as [f3|] eqn:H3; [|done].
  apply inferCity_Obj in H3 as (p3 & -> & A3).
  destruct (dropSmallPoints "maxPtsNight" (Obj p3)) as [f4|] eqn:H4; [|done].
  apply dropSmallPoints_Obj in H4 as (p4 & -> & A4 & N4 & Q4).
  intros (p5 & -> & A5 & N5 & Q5)%dropSmallPoints_Obj.
  assert (Hmax : lookupProp "maxPtsNight" p3 = lookupProp "maxPtsNight" raw)
    by (rewrite A3, A2, A1; [done|key_solver..]).
  assert (Hmin : lookupProp "minPtsNight" p4 = lookupProp "minPtsNight" raw)
    by (rewrite A4, A3, A2, A1; [done|key_solver..]).
  exists p5. split_and!; [done| |].
  - intros k Hk. rewrite !not_elem_of_cons in Hk. destruct Hk as (? & ? & ? & ? & _).
    rewrite A5, A4, A3, A2, A1; [done|..];
      rewrite !not_elem_of_cons; split_and?; done || apply not_elem_of_nil.
  - intros k [->|[->|[]%elem_of_nil]%elem_of_cons]%elem_of_cons.
    + rewrite A5 by key_solver. rewrite <- Hmax. by split.
    + rewrite <- Hmin. by split.
Qed.

End Translator.

(** ** The handler *)

Section Handler.
Context `{Dataset, Runtime}.

(** The handler sends one response, the one that is due, and lets no
    exception out. *)
Lemma search_outcome (req : request) (sent : list response) :
  search req sent = ((sent ++ [outcome req])%list, Ok tt).
Proof.
  unfold search, outcome. destruct (query req) as [q|]; [|done].
  destruct (nonEmpty q); simpl; [|done].
  unfold tryCatch, mbind, Handler_bind, andThen, lift, send.
  destruct (queryToFilter q) as [f0|e]; [|done].
  destruct (ignoreDistanceCap (test nearestWords q) f0) as [f|e]; [|done].
  destruct (validateFilter f); simpl; [|done].
  destruct (applyFilter f) as [data|e]; done.
Qed.

Lemma respond_outcome (req : request) : respond req = [outcome req].
Proof. unfold respond. by rewrite search_outcome. Qed.

End Handler.


(** ** Post-processing *)

Section PostProcessing.
Implicit Types (data : list HotelRecord) (r : HotelRecord).

Lemma minus_nonpos (a b : Qc) : a - b ≤ 0 ↔ a ≤ b.
Proof.
  rewrite (Qcplus_le_mono_r (a - b) 0 b).
  replace (a - b + b) with a by ring. by replace (0 + b) with b by ring.
Qed.

Lemma minus_pos (a b : Qc) : 0 < a - b ↔ b < a.
Proof.
  rewrite (Qcplus_lt_mono_r 0 (a - b) b).
  replace (a - b + b) with a by ring. by replace (0 + b) with b by ring.
Qed.

(** [cheapest] keeps the records no other record of [data] undercuts. *)
Lemma cheapest_isCheapestOf data :
  cheapest data = List.filter (isCheapestOf data) data.
Proof.
  unfold cheapest. apply filter_ext_on. intros r Hr. unfold isCheapestOf.
  destruct (Math_min (map AvgPtsNight data)) as [m|] eqn:Hmin.
  - apply Math_min_least in Hmin as [Hm Hleast].
    apply list_elem_of_fmap in Hm as (r0 & -> & Hr0).
    destruct (forallb _ data) eqn:Hall.
    + apply bool_decide_eq_true_2. f_equal. apply Qcle_antisym.
      * rewrite forallb_forall in Hall.
        specialize (Hall r0 (proj1 (list_elem_of_In _ _) Hr0)).
        by apply bool_decide_eq_true in Hall.
      * apply Hleast. by apply list_elem_of_fmap_2.
    + apply bool_decide_eq_false_2. intros [= Heq].
      assert (forallb (λ r', bool_decide (AvgPtsNight r ≤ AvgPtsNight r')) data = true);
        [|congruence].
      apply forallb_forall. intros r' Hr'%list_elem_of_In.
      apply bool_decide_eq_true_2. rewrite Heq. apply Hleast. by apply list_elem_of_fmap_2.
  - apply Math_min_nil in Hmin. destruct data; [|done]. by inversion Hr.
Qed.

Lemma isCheapestOf_spec data r :
  isCheapestOf data r = true ↔ ∀ r', r' ∈ data → AvgPtsNight r ≤ AvgPtsNight r'.
Proof.
  unfold isCheapestOf. rewrite forallb_forall. split.
  - intros Hall r' Hr'%list_elem_of_In. specialize (Hall r' Hr').
    by apply bool_decide_eq_true in Hall.
  - intros Hall r' Hr'%list_elem_of_In. by apply bool_decide_eq_true_2, Hall.
Qed.

Lemma nearest_length data : (length (nearest data) ≤ 5)%nat.
Proof. unfold nearest. apply firstn_le_length. Qed.

Lemma nearest_positive data :
  Forall (λ r, 0 < DistanceKmFromAirport r) (nearest data).
Proof.
  unfold nearest. apply Forall_take. rewrite sort_Permutation.
  apply Forall_forall. intros r [_ Hr]%elem_of_filter. by apply bool_decide_eq_true in Hr.
Qed.

Lemma nearest_ascending data : StronglySorted byDistance (nearest data).
Proof.
  unfold nearest. eapply StronglySorted_sublist; [apply sublist_take|].
  eapply StronglySorted_mono; [|apply sort_StronglySorted].
  - intros a b. unfold JS.notAfter, byDistance. by rewrite minus_nonpos.
  - intros a b. rewrite minus_pos, minus_nonpos. apply Qclt_le_weak.
  - intros a b c. rewrite !minus_nonpos. apply Qcle_trans.
Qed.

Lemma nearest_submseteq data : nearest data ⊆+ data.
Proof.
  unfold nearest. etrans; [apply sublist_submseteq, sublist_take|].
  rewrite sort_Permutation. apply sublist_submseteq, filter_sublist.
Qed.

(** The whole sorted array is in the order of the comparator. *)
Lemma distance_order_sorted (l : list HotelRecord) :
  StronglySorted
    (JS.notAfter (λ a b, DistanceKmFromAirport a - DistanceKmFromAirport b))
    (JS.sort (λ a b, DistanceKmFromAirport a - DistanceKmFromAirport b) l).
Proof.
  apply sort_StronglySorted.
  - intros a b. rewrite minus_pos, minus_nonpos. apply Qclt_le_weak.
  - intros a b c. rewrite !minus_nonpos. apply Qcle_trans.
Qed.

End PostProcessing.

(** ** Auxiliary facts about the pipeline *)

Lemma validateFilter_Obj (v : value) :
  validateFilter v = true → ∃ props, v = Obj props.
Proof. destruct v; try done. by eexists. Qed.

Lemma applyFilter_validated `{Dataset} (props : list (string * value)) :
  validateFilter (Obj props) = true →
  applyFilter (Obj props) = Ok (List.filter (satisfiesWith measuredWithin props) records).
Proof. intros Hv%validateFilter_accepts. by apply applyFilter_accepted. Qed.

Lemma validateFilter_deleteProp (k : string) (props : list (string * value)) :
  validateFilter (Obj props) = true → validateFilter (Obj (deleteProp k props)) = true.
Proof. rewrite !validateFilter_accepts. apply accepts_deleteProp. Qed.

Lemma sample_nonNegative : distancesNonNegative (@records sampleData).
Proof. repeat constructor; by apply (bool_decide_unpack _). Qed.

Section Pipeline.
Context `{Dataset, Runtime}.

Lemma get_Ok (o : value) (k : string) (v : option value) : get o k = Ok v → o ≠ Null.
Proof. by destruct o. Qed.

Lemma delete_Ok (o : value) (k : string) :
  o ≠ Null → ∃ o', JS.delete o k = Ok o' ∧ o' ≠ Null ∧ get o' k = Ok None.
Proof.
  destruct o; try done; intros _; simpl; eexists; (split; [done|]); (split; [done|]); try done.
  simpl. by rewrite lookupProp_deleteProp, bool_decide_eq_true_2.
Qed.

Lemma delete_other (o o' : value) (k k' : string) :
  JS.delete o k = Ok o' → k' ≠ k → get o' k' = get o k'.
Proof.
  destruct o; try done; intros [= <-] Hne; try done.
  simpl. rewrite lookupProp_deleteProp. by rewrite bool_decide_eq_false_2 by done.
Qed.

Lemma dropSmallPoints_not_Null (key : string) (filter out : value) :
  dropSmallPoints key filter = Ok out → out ≠ Null.
Proof.
  unfold dropSmallPoints, mbind, result_bind, bind.
  destruct (get filter key) as [v|] eqn:Hget; [|done].
  apply get_Ok in Hget.
  destruct v as [v|]; [|by intros [= <-]].
  destruct (lessThan v (Qc_of_Z 1000)) as [[]|]; [| by intros [= <-] | done].
  destruct (delete_Ok filter key Hget) as (o' & -> & Ho' & _). by intros [= <-].
Qed.

(** A filter the translator returns is never [null]. *)
Lemma queryToFilter_not_Null (q : string) (out : value) :
  queryToFilter q = Ok out → out ≠ Null.
Proof.
  unfold queryToFilter, correct, mbind, result_bind, bind.
  destruct (negb hasApiKey); [done|].
  destruct (chat_completions_create q); [|done].
  destruct (JSON_parse _); [|done].
  destruct (canonicaliseCity _); [|done].
  destruct (correctState _); [|done].
  destruct (inferCity _ _); [|done].
  destruct (dropSmallPoints "maxPtsNight" _); [|done].
  apply dropSmallPoints_not_Null.
Qed.

(** With the nearest intent the filter that is validated has no distance
    cap. *)
Lemma ignoreDistanceCap_nearest (translated : value) :
  translated ≠ Null →
  ∃ filter, ignoreDistanceCap true translated = Ok filter
            ∧ get filter "maxDistanceKm" = Ok None.
Proof.
  intros Hnn. destruct (delete_Ok translated "maxDistanceKm" Hnn) as (o' & Hd & _ & Hg).
  by exists o'.
Qed.

End Pipeline.

(** * The claims of the specification *)

(** C1. The filter schema accepts an object exactly when every key is one
    of the seven, the text keys hold strings and the numeric keys hold numbers
    (of either sign: the schema sets no minimum).  An object it rejects gets
    one error that points at an additional key or at a key of the wrong type,
    the handler answers 422 with that error and no records, and [applyFilter]
    reads nothing but the seven keys. *)
Theorem schema_is_the_trust_boundary `{Dataset, Runtime} (props : list (string * value)) :
  (validateFilter (Obj props) = true ↔ accepts (λ _, True) props)
  ∧ (validateFilter (Obj props) = false →
     ∃ e,
       validateFilter_errors (Obj props) = [e]
       ∧ offending (Obj props) e
       ∧ ∀ q translated,
           nonEmpty q = true →
           queryToFilter q = Ok translated →
           ignoreDistanceCap (test nearestWords q) translated = Ok (Obj props) →
           respond {| query := Some q |}
           = [Json 422 (InvalidFilter "invalid filter generated" [e])])
  ∧ (∀ props',
       (∀ k, k ∈ whitelist → lookupProp k props = lookupProp k props') →
       applyFilter (Obj props) = applyFilter (Obj props')).
Proof.
  split_and!.
  - apply validateFilter_accepts.
  - intros Hinvalid. destruct (validateFilter_rejects _ Hinvalid) as (e & He & Hoff).
    exists e. split_and!; [done..|].
    intros q translated Hq Htr Hcap. rewrite respond_outcome. unfold outcome. simpl.
    by rewrite Hq, Htr, Hcap, Hinvalid, He.
  - apply applyFilter_ext.
Qed.

(** A negative bound passes the schema, although the condition with
    non-negative numbers fails, and reaches the filter applier. *)
Lemma negative_bound_passes_the_schema :
  validateFilter (Obj [("maxDistanceKm", Num (- 1))]) = true
  ∧ ¬ accepts (λ n, 0 ≤ n) [("maxDistanceKm", Num (- 1))]
  ∧ @respond sampleData (scripted "{}" (Obj [("maxDistanceKm", Num (- 1))]))
      {| query := Some "hotels by the airport" |}
    = [Json 200 (Results 0 [])].
Proof.
  split_and!; [reflexivity| |vm_compute; reflexivity].
  intros (_ & _ & Hnum).
  destruct (Hnum "maxDistanceKm" (Num (- 1))) as (n & [= <-] & Hn); [key_solver|done|].
  apply Hn. reflexivity.
Qed.

Example unknown_key_rejected :
  @respond sampleData (scripted "{}" (Obj [("city", Str "Goa"); ("country", Str "India")]))
    {| query := Some "hotels in goa" |}
  = [Json 422 (InvalidFilter "invalid filter generated" [Ajv.AdditionalProperty "country"])].
Proof. vm_compute. reflexivity. Qed.

Example wrong_type_rejected :
  @respond sampleData (scripted "{}" (Obj [("maxPtsNight", Str "30000")]))
    {| query := Some "hotels under 30000 points" |}
  = [Json 422 (InvalidFilter "invalid filter generated"
                 [Ajv.WrongType "maxPtsNight" Ajv.TNumber])].
Proof. vm_compute. reflexivity. Qed.

(** C2. For a filter that passed the schema, over a dataset whose distances
    are not negative, [applyFilter] returns the records that satisfy the
    conjunction of the predicates of the keys present (an absent key
    constrains nothing), as a subsequence of the dataset in its order; so the
    result is never longer than the dataset, and the filter without keys
    returns every record. *)
Theorem applyFilter_selects `{Dataset} (props : list (string * value)) :
  validateFilter (Obj props) = true →
  distancesNonNegative records →
  ∃ out,
    applyFilter (Obj props) = Ok out
    ∧ out = List.filter (satisfies props) records
    ∧ out `sublist_of` records
    ∧ (length out ≤ length records)%nat
    ∧ (∀ r, r ∈ out ↔ r ∈ records ∧ satisfies props r = true)
    ∧ (props = [] → out = records).
Proof.
  intros Hvalid Hnn. exists (List.filter (satisfies props) records).
  split_and!.
  - rewrite applyFilter_validated by done. f_equal. by apply satisfies_measured.
  - done.
  - apply filter_sublist.
  - apply filter_length_le.
  - intros r. apply elem_of_filter.
  - intros ->. by apply filter_all.
Qed.

Lemma applyFilter_selects_witness :
  validateFilter (Obj [("city", Str "delhi"); ("maxPtsNight", Num (Qc_of_Z 26000))]) = true
  ∧ distancesNonNegative (@records sampleData)
  ∧ ∃ out,
      @applyFilter sampleData
        (Obj [("city", Str "delhi"); ("maxPtsNight", Num (Qc_of_Z 26000))]) = Ok out
      ∧ out = List.filter
                (satisfies [("city", Str "delhi"); ("maxPtsNight", Num (Qc_of_Z 26000))])
                (@records sampleData)
      ∧ out `sublist_of` @records sampleData
      ∧ (length out ≤ length (@records sampleData))%nat
      ∧ (∀ r, r ∈ out ↔ r ∈ @records sampleData
              ∧ satisfies [("city", Str "delhi"); ("maxPtsNight", Num (Qc_of_Z 26000))] r = true)
      ∧ ([("city", Str "delhi"); ("maxPtsNight", Num (Qc_of_Z 26000))] = [] →
         out = @records sampleData).
Proof.
  split; [reflexivity|]. split; [exact sample_nonNegative|].
  apply (@applyFilter_selects sampleData); [reflexivity | exact sample_nonNegative].
Defined.

Example applyFilter_ex1 :
  @applyFilter sampleData (Obj [("city", Str "delhi"); ("maxPtsNight", Num (Qc_of_Z 26000))])
  = Ok [jwAerocity].
Proof. vm_compute. reflexivity. Qed.

(** C3. When a validated filter holds [maxDistanceKm = m], over a dataset
    whose distances are not negative, a record of the dataset is retained if
    and only if it meets the other keys and its distance is strictly positive
    and at most [m]: the result is the result of the filter without the key
    (the records of the dataset that meet the other keys), narrowed to those
    distances.  A record at distance zero is excluded, and a record of the
    dataset that meets the other keys and lies at exactly [m] is retained. *)
Theorem maxDistanceKm_positive_inclusive `{Dataset}
    (props : list (string * value)) (m : Qc) :
  validateFilter (Obj props) = true →
  lookupProp "maxDistanceKm" props = Some (Num m) →
  distancesNonNegative records →
  ∃ out rest,
    applyFilter (Obj props) = Ok out
    ∧ applyFilter (Obj (deleteProp "maxDistanceKm" props)) = Ok rest
    ∧ rest = List.filter (satisfies (deleteProp "maxDistanceKm" props)) records
    ∧ out = List.filter (withinDistance m) rest
    ∧ (∀ r, r ∈ out ↔
            r ∈ rest ∧ 0 < DistanceKmFromAirport r ∧ DistanceKmFromAirport r ≤ m)
    ∧ (∀ r, r ∈ out ↔
            r ∈ records
            ∧ satisfies (deleteProp "maxDistanceKm" props) r = true
            ∧ 0 < DistanceKmFromAirport r ∧ DistanceKmFromAirport r ≤ m)
    ∧ (∀ r, DistanceKmFromAirport r = 0 → r ∉ out)
    ∧ (∀ r, r ∈ rest → 0 < m → DistanceKmFromAirport r = m → r ∈ out)
    ∧ (∀ r, r ∈ records →
            satisfies (deleteProp "maxDistanceKm" props) r = true →
            0 < m → DistanceKmFromAirport r = m → r ∈ out).
Proof.
  intros Hvalid Hm Hnn.
  set (rest := List.filter (satisfies (deleteProp "maxDistanceKm" props)) records).
  assert (Hout : List.filter (satisfies props) records = List.filter (withinDistance m) rest).
  { unfold rest. rewrite filter_filter. apply filter_ext_on. intros r _.
    unfold satisfies, satisfiesWith.
    rewrite !textConstraint_deleteProp, !numberConstraint_deleteProp. simpl.
    unfold numberConstraint at 3. by rewrite Hm, andb_true_r. }
  assert (Hiff : ∀ r, r ∈ List.filter (withinDistance m) rest ↔
            r ∈ rest ∧ 0 < DistanceKmFromAirport r ∧ DistanceKmFromAirport r ≤ m).
  { intros r. rewrite elem_of_filter. unfold withinDistance.
    by rewrite andb_true_iff, !bool_decide_eq_true. }
  assert (Hrest : ∀ r, r ∈ rest ↔
            r ∈ records ∧ satisfies (deleteProp "maxDistanceKm" props) r = true).
  { intros r. apply elem_of_filter. }
  exists (List.filter (withinDistance m) rest), rest. split_and!.
  - rewrite applyFilter_validated by done. by rewrite satisfies_measured, Hout.
  - rewrite applyFilter_validated by by apply validateFilter_deleteProp.
    by rewrite satisfies_measured.
  - done.
  - done.
  - done.
  - intros r. rewrite Hiff, Hrest. tauto.
  - intros r Hr [_ [Hpos _]]%Hiff. rewrite Hr in Hpos. by apply Qclt_not_le in Hpos.
  - intros r Hr Hpos Heq. apply Hiff. rewrite Heq. split_and!; [done..|apply Qcle_refl].
  - intros r Hr Hsat Hpos Heq. apply Hiff. rewrite Heq.
    split_and!; [by apply Hrest|done|apply Qcle_refl].
Qed.

Lemma maxDistanceKm_positive_inclusive_witness :
  ∃ out rest,
    @applyFilter sampleData (Obj [("maxDistanceKm", Num (Q2Qc (125 # 10)))]) = Ok out
    ∧ @applyFilter sampleData
        (Obj (deleteProp "maxDistanceKm" [("maxDistanceKm", Num (Q2Qc (125 # 10)))])) = Ok rest
    ∧ rest = List.filter
               (satisfies (deleteProp "maxDistanceKm" [("maxDistanceKm", Num (Q2Qc (125 # 10)))]))
               (@records sampleData)
    ∧ out = List.filter (withinDistance (Q2Qc (125 # 10))) rest
    ∧ (∀ r, r ∈ out ↔
            r ∈ rest ∧ 0 < DistanceKmFromAirport r
            ∧ DistanceKmFromAirport r ≤ Q2Qc (125 # 10))
    ∧ (∀ r, r ∈ out ↔
            r ∈ @records sampleData
            ∧ satisfies (deleteProp "maxDistanceKm" [("maxDistanceKm", Num (Q2Qc (125 # 10)))]) r
              = true
            ∧ 0 < DistanceKmFromAirport r ∧ DistanceKmFromAirport r ≤ Q2Qc (125 # 10))
    ∧ (∀ r, DistanceKmFromAirport r = 0 → r ∉ out)
    ∧ (∀ r, r ∈ rest → 0 < Q2Qc (125 # 10) →
            DistanceKmFromAirport r = Q2Qc (125 # 10) → r ∈ out)
    ∧ (∀ r, r ∈ @records sampleData →
            satisfies (deleteProp "maxDistanceKm" [("maxDistanceKm", Num (Q2Qc (125 # 10)))]) r
            = true →
            0 < Q2Qc (125 # 10) → DistanceKmFromAirport r = Q2Qc (125 # 10) → r ∈ out).
Proof.
  apply (@maxDistanceKm_positive_inclusive sampleData);
    [reflexivity | reflexivity | exact sample_nonNegative].
Defined.

Example maxDistanceKm_ex1 :
  @applyFilter sampleData (Obj [("maxDistanceKm", Num (Q2Qc (125 # 10)))])
  = Ok [westinGurgaon; jwAerocity].
Proof. vm_compute. reflexivity. Qed.

(** C4. For a validated filter whose [brand] is [b]: when [b], trimmed and
    lower-cased, is exactly "marriott", the result is that of the same filter
    without the [brand] key, which holds the records of the dataset that meet
    the other keys; for any other [b] a record of the dataset is retained if
    and only if it meets the other keys and [b] occurs, ignoring case, in the
    record's brand or in its hotel name. *)
Theorem brand_umbrella_or_substring `{Dataset}
    (props : list (string * value)) (b : string) :
  validateFilter (Obj props) = true →
  lookupProp "brand" props = Some (Str b) →
  ∃ out rest,
    applyFilter (Obj props) = Ok out
    ∧ applyFilter (Obj (deleteProp "brand" props)) = Ok rest
    ∧ rest = List.filter (satisfiesWith measuredWithin (deleteProp "brand" props)) records
    ∧ (toLowerCase (trim b) = "marriott" →
       out = rest
       ∧ ∀ r, r ∈ out ↔
              r ∈ records
              ∧ satisfiesWith measuredWithin (deleteProp "brand" props) r = true)
    ∧ (toLowerCase (trim b) ≠ "marriott" →
       out = List.filter (λ r, contains (Brand r) b || contains (Hotel r) b) rest
       ∧ (∀ r, r ∈ out ↔
               r ∈ rest
               ∧ (occursIn (toLowerCase b) (toLowerCase (Brand r))
                  ∨ occursIn (toLowerCase b) (toLowerCase (Hotel r))))
       ∧ (∀ r, r ∈ out ↔
               r ∈ records
               ∧ satisfiesWith measuredWithin (deleteProp "brand" props) r = true
               ∧ (occursIn (toLowerCase b) (toLowerCase (Brand r))
                  ∨ occursIn (toLowerCase b) (toLowerCase (Hotel r))))).
Proof.
  intros Hvalid Hb.
  set (rest := List.filter (satisfiesWith measuredWithin (deleteProp "brand" props)) records).
  assert (Hout : List.filter (satisfiesWith measuredWithin props) records
                 = List.filter (brandMatches b) rest).
  { unfold rest. rewrite filter_filter. apply filter_ext_on. intros r _.
    unfold satisfiesWith.
    rewrite !textConstraint_deleteProp, !numberConstraint_deleteProp. simpl.
    unfold textConstraint at 2. rewrite Hb.
    destruct (textConstraint props "city" cityMatches r), (brandMatches b r),
      (textConstraint props "hotel" hotelMatches r),
      (textConstraint props "state" stateMatches r),
      (numberConstraint props "maxPtsNight" atMostPoints r),
      (numberConstraint props "minPtsNight" atLeastPoints r),
      (numberConstraint props "maxDistanceKm" measuredWithin r); done. }
  assert (Hrest : ∀ r, r ∈ rest ↔
            r ∈ records ∧ satisfiesWith measuredWithin (deleteProp "brand" props) r = true).
  { intros r. apply elem_of_filter. }
  exists (List.filter (brandMatches b) rest), rest. split_and!.
  - rewrite applyFilter_validated by done. by rewrite Hout.
  - by rewrite applyFilter_validated by by apply validateFilter_deleteProp.
  - done.
  - intros Hm.
    assert (Hall : List.filter (brandMatches b) rest = rest).
    { apply filter_all. intros r. unfold brandMatches. by rewrite bool_decide_eq_true_2. }
    split; [done|]. intros r. by rewrite Hall.
  - intros Hm.
    assert (Hb' : ∀ r, brandMatches b r = contains (Brand r) b || contains (Hotel r) b).
    { intros r. unfold brandMatches. by rewrite bool_decide_eq_false_2. }
    assert (Hiff : ∀ r, r ∈ List.filter (brandMatches b) rest ↔
              r ∈ rest
              ∧ (occursIn (toLowerCase b) (toLowerCase (Brand r))
                 ∨ occursIn (toLowerCase b) (toLowerCase (Hotel r)))).
    { intros r. rewrite elem_of_filter, Hb', orb_true_iff. unfold contains.
      by rewrite !includes_occurs. }
    split_and!; [apply filter_ext_on; by intros r _|done|].
    intros r. rewrite Hiff, Hrest. tauto.
Qed.

Lemma brand_umbrella_or_substring_witness :
  ∃ out rest,
    @applyFilter sampleData (Obj [("brand", Str " Marriott "); ("state", Str "haryana")]) = Ok out
    ∧ @applyFilter sampleData
        (Obj (deleteProp "brand" [("brand", Str " Marriott "); ("state", Str "haryana")]))
      = Ok rest
    ∧ rest = List.filter
               (satisfiesWith measuredWithin
                  (deleteProp "brand" [("brand", Str " Marriott "); ("state", Str "haryana")]))
               (@records sampleData)
    ∧ (toLowerCase (trim " Marriott ") = "marriott" →
       out = rest
       ∧ ∀ r, r ∈ out ↔
              r ∈ @records sampleData
              ∧ satisfiesWith measuredWithin
                  (deleteProp "brand" [("brand", Str " Marriott "); ("state", Str "haryana")]) r
                = true)
    ∧ (toLowerCase (trim " Marriott ") ≠ "marriott" →
       out = List.filter (λ r, contains (Brand r) " Marriott " || contains (Hotel r) " Marriott ")
               rest
       ∧ (∀ r, r ∈ out ↔
               r ∈ rest
               ∧ (occursIn (toLowerCase " Marriott ") (toLowerCase (Brand r))
                  ∨ occursIn (toLowerCase " Marriott ") (toLowerCase (Hotel r))))
       ∧ (∀ r, r ∈ out ↔
               r ∈ @records sampleData
               ∧ satisfiesWith measuredWithin
                   (deleteProp "brand" [("brand", Str " Marriott "); ("state", Str "haryana")]) r
                 = true
               ∧ (occursIn (toLowerCase " Marriott ") (toLowerCase (Brand r))
                  ∨ occursIn (toLowerCase " Marriott ") (toLowerCase (Hotel r))))).
Proof.
  apply (@brand_umbrella_or_substring sampleData); reflexivity.
Defined.

Example brand_ex1 :
  @applyFilter sampleData (Obj [("brand", Str " Marriott "); ("state", Str "haryana")])
  = Ok [westinGurgaon; courtyardGurugram].
Proof. vm_compute. reflexivity. Qed.

Example brand_ex2 :
  @applyFilter sampleData (Obj [("brand", Str "marriott g")])
  = Ok [courtyardGurugram].
Proof. vm_compute. reflexivity. Qed.

(** C5. When the query text matches one of "cheapest", "lowest", "least
    expensive", "min", "minimum" (whole words, any case), the records found by
    the filter are reduced to those whose [AvgPtsNight] no record of the set
    undercuts: all the records at the minimum, in their order.  That reduced
    set is what the handler answers with (after the nearest step when that
    intent is present too).  For the values 30000, 25000, 25000, 40000 the two
    records at 25000 remain. *)
Theorem cheapest_intent_keeps_the_minimum `{Dataset, Runtime}
    (q : string) (translated filter : value) (data : list HotelRecord) :
  nonEmpty q = true →
  test cheapestWords q = true →
  queryToFilter q = Ok translated →
  ignoreDistanceCap (test nearestWords q) translated = Ok filter →
  validateFilter filter = true →
  applyFilter filter = Ok data →
  cheapest data = List.filter (isCheapestOf data) data
  ∧ cheapest data `sublist_of` data
  ∧ (∀ r, r ∈ cheapest data ↔
          r ∈ data ∧ ∀ r', r' ∈ data → AvgPtsNight r ≤ AvgPtsNight r')
  ∧ (∃ final,
       respond {| query := Some q |} = [Json 200 (Results (length final) final)]
       ∧ final = if test nearestWords q then nearest (cheapest data) else cheapest data)
  ∧ (∀ a b c d,
       map AvgPtsNight [a; b; c; d]
       = [Qc_of_Z 30000; Qc_of_Z 25000; Qc_of_Z 25000; Qc_of_Z 40000] →
       cheapest [a; b; c; d] = [b; c]).
Proof.
  intros Hq Hcheap Htr Hcap Hvalid Hdata. split_and!.
  - apply cheapest_isCheapestOf.
  - rewrite cheapest_isCheapestOf. apply filter_sublist.
  - intros r. by rewrite cheapest_isCheapestOf, elem_of_filter, isCheapestOf_spec.
  - eexists. split; [|done]. rewrite respond_outcome. unfold outcome. simpl.
    rewrite Hq, Htr, Hcap, Hvalid, Hdata. simpl. unfold postProcess. by rewrite Hcheap.
  - intros a b c d [= Ha Hb Hc Hd]. unfold cheapest. simpl.
    rewrite Ha, Hb, Hc, Hd. reflexivity.
Qed.

Lemma cheapest_intent_keeps_the_minimum_witness :
  cheapest (@records sampleData) = List.filter (isCheapestOf (@records sampleData)) (@records sampleData)
  ∧ cheapest (@records sampleData) `sublist_of` @records sampleData
  ∧ (∀ r, r ∈ cheapest (@records sampleData) ↔
          r ∈ @records sampleData
          ∧ ∀ r', r' ∈ @records sampleData → AvgPtsNight r ≤ AvgPtsNight r')
  ∧ (∃ final,
       @respond sampleData (scripted "{}" (Obj []))
         {| query := Some "Cheapest Marriott redemption" |}
       = [Json 200 (Results (length final) final)]
       ∧ final = if test nearestWords "Cheapest Marriott redemption"
                 then nearest (cheapest (@records sampleData))
                 else cheapest (@records sampleData))
  ∧ (∀ a b c d,
       map AvgPtsNight [a; b; c; d]
       = [Qc_of_Z 30000; Qc_of_Z 25000; Qc_of_Z 25000; Qc_of_Z 40000] →
       cheapest [a; b; c; d] = [b; c]).
Proof.
  apply (@cheapest_intent_keeps_the_minimum sampleData (scripted "{}" (Obj []))
           "Cheapest Marriott redemption" (Obj []) (Obj []));
    vm_compute; reflexivity.
Defined.

Example cheapest_ex1 :
  @respond sampleData (scripted "{}" (Obj []))
    {| query := Some "Cheapest Marriott redemption" |}
  = [Json 200 (Results 2 [courtyardGurugram; jwAerocity])].
Proof. vm_compute. reflexivity. Qed.

Example cheapestWords_ex1 :
  map (test cheapestWords)
    ["the LOWEST points"; "least expensive stay"; "min points"; "Minimum, please";
     "for 5 mins"; "administrator"; "cheapestt"; "least  expensive"]
  = [true; true; true; true; false; false; false; false].
Proof. reflexivity. Qed.

(** C6. When the query text matches "nearest" or "closest": (a) the filter
    that is validated is the translated one without its [maxDistanceKm] key,
    every other key as translated; (b) if that filter passes the schema, the
    answer holds the records of the dataset found by the filter, reduced to
    the cheapest first when that intent is present too, then restricted to
    positive distances, sorted by ascending distance and cut to five.  So the
    answer has at most five records, each at a positive distance, in ascending
    order of distance, all taken from the filtered set; the records at a
    positive distance split into the answer and the rest, no record of the
    answer is farther than a record of the rest, and the answer has five
    records, or all the records at a positive distance when they are fewer. *)
Theorem nearest_intent_five_closest `{Dataset, Runtime}
    (q : string) (translated : value) :
  nonEmpty q = true →
  test nearestWords q = true →
  queryToFilter q = Ok translated →
  ∃ filter,
    ignoreDistanceCap (test nearestWords q) translated = Ok filter
    ∧ JS.delete translated "maxDistanceKm" = Ok filter
    ∧ get filter "maxDistanceKm" = Ok None
    ∧ (∀ k, k ≠ "maxDistanceKm" → get filter k = get translated k)
    ∧ (validateFilter filter = false →
       respond {| query := Some q |}
       = [Json 422 (InvalidFilter "invalid filter generated" (validateFilter_errors filter))])
    ∧ (validateFilter filter = true →
       ∃ data out,
         applyFilter filter = Ok data
         ∧ (∃ props,
              filter = Obj props
              ∧ data = List.filter (satisfiesWith measuredWithin props) records)
         ∧ respond {| query := Some q |} = [Json 200 (Results (length out) out)]
         ∧ out = nearest (if test cheapestWords q then cheapest data else data)
         ∧ (length out ≤ 5)%nat
         ∧ Forall (λ r, 0 < DistanceKmFromAirport r) out
         ∧ StronglySorted byDistance out
         ∧ out ⊆+ data
         ∧ (∃ rest,
              (out ++ rest)%list
              ≡ₚ List.filter (λ r, bool_decide (0 < DistanceKmFromAirport r))
                   (if test cheapestWords q then cheapest data else data)
              ∧ ∀ r r', r ∈ out → r' ∈ rest →
                        DistanceKmFromAirport r ≤ DistanceKmFromAirport r')
         ∧ length out
           = Nat.min 5
               (length (List.filter (λ r, bool_decide (0 < DistanceKmFromAirport r))
                          (if test cheapestWords q then cheapest data else data)))).
Proof.
  intros Hq Hnear Htr.
  destruct (ignoreDistanceCap_nearest translated) as (filter & Hcap & Hget);
    [by eapply queryToFilter_not_Null|].
  exists filter. rewrite Hnear. split_and!; [done..| | |].
  - intros k Hk. by apply (delete_other translated filter "maxDistanceKm").
  - intros Hinvalid. rewrite respond_outcome. unfold outcome. simpl.
    by rewrite Hq, Htr, Hnear, Hcap, Hinvalid.
  - intros Hvalid. destruct (validateFilter_Obj _ Hvalid) as [props ->].
    pose proof (applyFilter_validated props Hvalid) as Hdata.
    set (found := if test cheapestWords q
                  then cheapest (List.filter (satisfiesWith measuredWithin props) records)
                  else List.filter (satisfiesWith measuredWithin props) records).
    set (positive := List.filter (λ r, bool_decide (0 < DistanceKmFromAirport r)) found).
    set (cmp := λ a b : HotelRecord, DistanceKmFromAirport a - DistanceKmFromAirport b).
    eexists _, _. split_and!; [exact Hdata|by eexists| |done|..].
    + rewrite respond_outcome. unfold outcome. simpl.
      rewrite Hq, Htr, Hnear, Hcap, Hvalid, Hdata. simpl.
      unfold postProcess. by rewrite Hnear.
    + apply nearest_length.
    + apply nearest_positive.
    + apply nearest_ascending.
    + etrans; [apply nearest_submseteq|].
      destruct (test cheapestWords q); [|done].
      rewrite cheapest_isCheapestOf. apply sublist_submseteq, filter_sublist.
    + exists (drop 5 (JS.sort cmp positive)). unfold nearest. fold found positive cmp. split.
      * by rewrite take_drop, sort_Permutation.
      * intros r r' Hr Hr'. apply minus_nonpos.
        apply (StronglySorted_app_1_elem_of (JS.notAfter cmp)
                 (take 5 (JS.sort cmp positive)) (drop 5 (JS.sort cmp positive))); [|done..].
        rewrite take_drop. apply distance_order_sorted.
    + unfold nearest. fold found positive cmp.
      by rewrite length_take, (Permutation_length (sort_Permutation cmp positive)).
Qed.

Lemma nearest_intent_five_closest_witness :
  ∃ filter,
    ignoreDistanceCap (test nearestWords "hotels nearest to the airport")
      (Obj [("maxDistanceKm", Num 1)]) = Ok filter
    ∧ JS.delete (Obj [("maxDistanceKm", Num 1)]) "maxDistanceKm" = Ok filter
    ∧ get filter "maxDistanceKm" = Ok None
    ∧ (∀ k, k ≠ "maxDistanceKm" → get filter k = get (Obj [("maxDistanceKm", Num 1)]) k)
    ∧ (validateFilter filter = false →
       @respond sampleData (scripted "{}" (Obj [("maxDistanceKm", Num 1)]))
         {| query := Some "hotels nearest to the airport" |}
       = [Json 422 (InvalidFilter "invalid filter generated" (validateFilter_errors filter))])
    ∧ (validateFilter filter = true →
       ∃ data out,
         @applyFilter sampleData filter = Ok data
         ∧ (∃ props,
              filter = Obj props
              ∧ data = List.filter (satisfiesWith measuredWithin props) (@records sampleData))
         ∧ @respond sampleData (scripted "{}" (Obj [("maxDistanceKm", Num 1)]))
             {| query := Some "hotels nearest to the airport" |}
           = [Json 200 (Results (length out) out)]
         ∧ out = nearest (if test cheapestWords "hotels nearest to the airport" then cheapest data else data)
         ∧ (length out ≤ 5)%nat
         ∧ Forall (λ r, 0 < DistanceKmFromAirport r) out
         ∧ StronglySorted byDistance out
         ∧ out ⊆+ data
         ∧ (∃ rest,
              (out ++ rest)%list
              ≡ₚ List.filter (λ r, bool_decide (0 < DistanceKmFromAirport r))
                   (if test cheapestWords "hotels nearest to the airport" then cheapest data else data)
              ∧ ∀ r r', r ∈ out → r' ∈ rest →
                        DistanceKmFromAirport r ≤ DistanceKmFromAirport r')
         ∧ length out
           = Nat.min 5
               (length (List.filter (λ r, bool_decide (0 < DistanceKmFromAirport r))
                          (if test cheapestWords "hotels nearest to the airport" then cheapest data else data)))).
Proof.
  apply (@nearest_intent_five_closest sampleData
           (scripted "{}" (Obj [("maxDistanceKm", Num 1)]))
           "hotels nearest to the airport" (Obj [("maxDistanceKm", Num 1)]));
    vm_compute; reflexivity.
Defined.

Example nearest_ex1 :
  @respond sampleData (scripted "{}" (Obj [("maxDistanceKm", Num 1)]))
    {| query := Some "hotels nearest to the airport" |}
  = [Json 200 (Results 3 [jwAerocity; westinGurgaon; meridienGoa])].
Proof. vm_compute. reflexivity. Qed.

(** C7. The state-misclassification correction: on a filter whose [city]
    holds [s] (as canonicalised), that has no [state], and whose [s] in lower
    case is a known state, the correction sets [state] to [s], removes [city]
    and leaves every other key alone; on [{"city": s}] alone the result is
    [{"state": s}]. *)
Theorem correctState_moves_city_to_state `{Dataset}
    (props : list (string * value)) (s : string) :
  lookupProp "city" props = Some (Str s) →
  lookupProp "state" props = None →
  toLowerCase s ∈ knownStates →
  ∃ props',
    correctState (Obj props) = Ok (Obj props')
    ∧ lookupProp "state" props' = Some (Str s)
    ∧ lookupProp "city" props' = None
    ∧ (∀ k, k ≠ "city" → k ≠ "state" → lookupProp k props' = lookupProp k props)
    ∧ (props = [("city", Str s)] → props' = [("state", Str s)]).
Proof.
  intros Hcity Hstate Hknown.
  exists (deleteProp "city" (assignProp "state" (Str s) props)). split_and!.
  - apply correctState_moves; [done| |done]. by rewrite Hstate.
  - by rewrite lookupProp_deleteProp, lookupProp_assignProp.
  - by rewrite lookupProp_deleteProp.
  - intros k Hc Hs. rewrite lookupProp_deleteProp, lookupProp_assignProp.
    by rewrite !bool_decide_eq_false_2.
  - by intros ->.
Qed.

Lemma correctState_moves_city_to_state_witness :
  ∃ props',
    @correctState sampleData (Obj [("city", Str "Haryana")]) = Ok (Obj props')
    ∧ lookupProp "state" props' = Some (Str "Haryana")
    ∧ lookupProp "city" props' = None
    ∧ (∀ k, k ≠ "city" → k ≠ "state" →
            lookupProp k props' = lookupProp k [("city", Str "Haryana")])
    ∧ ([("city", Str "Haryana")] = [("city", Str "Haryana")] →
       props' = [("state", Str "Haryana")]).
Proof.
  apply (@correctState_moves_city_to_state sampleData [("city", Str "Haryana")] "Haryana");
    [reflexivity | reflexivity | by apply (bool_decide_unpack _)].
Defined.

(** End to end: the translator returns [{"state": "Haryana"}] for the model
    output [{"city": "Haryana"}] when the query mentions no city alias; when it
    does, the fallback that follows the correction sets [city] again. *)
Lemma queryToFilter_Haryana `{Dataset, Runtime} (q content : string) :
  hasApiKey = true →
  chat_completions_create q = Ok content →
  JSON_parse (trim content) = Ok (Obj [("city", Str "Haryana")]) →
  "haryana" ∈ knownStates →
  List.find (λ entry, includes (toLowerCase q) entry.1) cityAliases = None →
  queryToFilter q = Ok (Obj [("state", Str "Haryana")]).
Proof.
  intros Hkey Hchat Hparse Hknown Hfind. unfold queryToFilter.
  rewrite Hkey. simpl. rewrite Hchat. simpl. rewrite Hparse. simpl.
  unfold correct.
  change (canonicaliseCity (Obj [("city", Str "Haryana")]))
    with (Ok (Obj [("city", Str "Haryana")]) : result value).
  simpl. rewrite (correctState_moves [("city", Str "Haryana")] "Haryana") by done.
  unfold deleteProp, assignProp. simpl.
  unfold inferCity, get, mbind, result_bind, bind. simpl lookupProp. cbv iota beta.
  unfold truthy'. rewrite Hfind. reflexivity.
Qed.

Example queryToFilter_Haryana_ex1 :
  @queryToFilter sampleData (scripted "{}" (Obj [("city", Str "Haryana")]))
    "marriott hotels in haryana"
  = Ok (Obj [("state", Str "Haryana")]).
Proof. vm_compute. reflexivity. Qed.

Example queryToFilter_Haryana_ex2 :
  @queryToFilter sampleData (scripted "{}" (Obj [("city", Str "Haryana")]))
    "hotels in haryana near delhi"
  = Ok (Obj [("state", Str "Haryana"); ("city", Str "new delhi")]).
Proof. vm_compute. reflexivity. Qed.

Example canonicaliseCity_ex1 :
  canonicaliseCity (Obj [("city", Str "Bangalore")]) = Ok (Obj [("city", Str "bengaluru")]).
Proof. reflexivity. Qed.

(** C8. When the model's output parses as an object and the translator
    returns a corrected filter, that filter is an object in which each of
    [minPtsNight] and [maxPtsNight] is absent if the output had no such key,
    and, if the output gave it a number [q], is present (with [q]) exactly when
    [q] is at least 1000: a number below 1000 is dropped, 1000 itself is
    kept. *)
Theorem small_point_bounds_dropped `{Dataset, Runtime}
    (q content : string) (raw : list (string * value)) (out : value) (k : string) :
  k ∈ ["minPtsNight"; "maxPtsNight"] →
  chat_completions_create q = Ok content →
  JSON_parse (trim content) = Ok (Obj raw) →
  queryToFilter q = Ok out →
  ∃ props,
    out = Obj props
    ∧ (lookupProp k raw = None → lookupProp k props = None)
    ∧ (∀ n, lookupProp k raw = Some (Num n) →
            (is_Some (lookupProp k props) ↔ Qc_of_Z 1000 ≤ n)
            ∧ (Qc_of_Z 1000 ≤ n → lookupProp k props = Some (Num n))
            ∧ (n < Qc_of_Z 1000 → lookupProp k props = None)).
Proof.
  intros Hk Hchat Hparse. unfold queryToFilter.
  destruct hasApiKey; simpl; [|done]. rewrite Hchat. simpl. rewrite Hparse. simpl.
  intros (props & -> & _ & Hkeys)%correct_Obj.
  assert (Hk' : k ∈ ["maxPtsNight"; "minPtsNight"])
    by (rewrite !elem_of_cons in Hk |- *; tauto).
  destruct (Hkeys k Hk') as [Hnone Hnum].
  exists props. split_and!; [done..|].
  intros n Hn. rewrite (Hnum n Hn). case_bool_decide as Hlt; split_and!.
  - split; [by intros [? ?]|]. intros Hle. by apply Qcle_not_lt in Hle.
  - intros Hle. by apply Qcle_not_lt in Hle.
  - done.
  - split; [intros _; by apply Qcnot_lt_le | by eexists].
  - done.
  - done.
Qed.

Lemma small_point_bounds_dropped_witness :
  ∃ props,
    Obj [("maxPtsNight", Num (Qc_of_Z 1000))] = Obj props
    ∧ (lookupProp "maxPtsNight"
         [("maxPtsNight", Num (Qc_of_Z 1000)); ("minPtsNight", Num (Qc_of_Z 5))] = None →
       lookupProp "maxPtsNight" props = None)
    ∧ (∀ n, lookupProp "maxPtsNight"
              [("maxPtsNight", Num (Qc_of_Z 1000)); ("minPtsNight", Num (Qc_of_Z 5))]
            = Some (Num n) →
            (is_Some (lookupProp "maxPtsNight" props) ↔ Qc_of_Z 1000 ≤ n)
            ∧ (Qc_of_Z 1000 ≤ n → lookupProp "maxPtsNight" props = Some (Num n))
            ∧ (n < Qc_of_Z 1000 → lookupProp "maxPtsNight" props = None)).
Proof.
  apply (@small_point_bounds_dropped sampleData
           (scripted "{}" (Obj [("maxPtsNight", Num (Qc_of_Z 1000));
                                ("minPtsNight", Num (Qc_of_Z 5))]))
           "hotels for 5 nights" "{}"
           [("maxPtsNight", Num (Qc_of_Z 1000)); ("minPtsNight", Num (Qc_of_Z 5))]);
    [key_solver | reflexivity | reflexivity | vm_compute; reflexivity].
Defined.

(** C9. Every request gets exactly one response and the handler lets no
    exception out: 400 when the query is missing or empty; 503 with the
    message when the credential is missing, when the model's output does not
    parse, or when anything else is thrown while translating; 422 with the
    one offending key or type when the schema rejects the filter; otherwise 200
    with the records and their count.  An error response carries no
    records. *)
Theorem search_answers_once `{Dataset, Runtime} (req : request) :
  ∃ r,
    search req [] = ([r], Ok tt)
    ∧ respond req = [r]
    ∧ (query req = None ∨ query req = Some "" → r = Json 400 (Error "query field required"))
    ∧ (∀ q, query req = Some q → nonEmpty q = true →
         (hasApiKey = false → r = Json 503 (Error "OPENAI_API_KEY missing"))
         ∧ (∀ content message,
              hasApiKey = true → chat_completions_create q = Ok content →
              JSON_parse (trim content) = Throw message → r = Json 503 (Error message))
         ∧ (∀ message, queryToFilter q = Throw message → r = Json 503 (Error message))
         ∧ (∀ translated,
              queryToFilter q = Ok translated →
              ∃ filter,
                ignoreDistanceCap (test nearestWords q) translated = Ok filter
                ∧ (validateFilter filter = false →
                   ∃ e, r = Json 422 (InvalidFilter "invalid filter generated" [e])
                        ∧ offending filter e)
                ∧ (validateFilter filter = true →
                   ∃ data, applyFilter filter = Ok data
                           ∧ r = Json 200 (Results (length (postProcess q data))
                                             (postProcess q data)))))
    ∧ (match payload r with
       | Results _ _ => status r = 200%nat
       | _ => status r = 400%nat ∨ status r = 422%nat ∨ status r = 503%nat
       end).
Proof.
  exists (outcome req). split; [apply (search_outcome req [])|]. split; [apply respond_outcome|].
  unfold outcome. split_and!.
  - by intros [->| ->].
  - intros q -> Hq. rewrite Hq. simpl. split_and!.
    + intros Hkey. unfold queryToFilter. by rewrite Hkey.
    + intros content message Hkey Hchat Hparse. unfold queryToFilter.
      rewrite Hkey. simpl. rewrite Hchat. simpl. by rewrite Hparse.
    + by intros message ->.
    + intros translated Htr. rewrite Htr.
      assert (∃ filter, ignoreDistanceCap (test nearestWords q) translated = Ok filter)
        as [filter Hcap].
      { unfold ignoreDistanceCap. destruct (test nearestWords q); [|by eexists].
        destruct (delete_Ok translated "maxDistanceKm") as (o' & ? & _);
          [by eapply queryToFilter_not_Null | by eexists]. }
      exists filter. rewrite Hcap. split_and!; [done| |].
      * intros Hinvalid. rewrite Hinvalid. simpl.
        destruct (validateFilter_rejects _ Hinvalid) as (e & -> & Hoff). by exists e.
      * intros Hvalid. rewrite Hvalid. simpl.
        destruct (validateFilter_Obj _ Hvalid) as [props ->].
        rewrite (applyFilter_validated props Hvalid). by eexists.
  - destruct (query req) as [q|]; [|by left].
    destruct (nonEmpty q); simpl; [|by left].
    destruct (queryToFilter q); [|by right; right].
    destruct (ignoreDistanceCap _ _); [|by right; right].
    destruct (validateFilter _); simpl; [|by right; left].
    by destruct (applyFilter _); [|right; right].
Qed.

Example missing_query_400 :
  @respond sampleData (scripted "{}" (Obj [])) {| query := None |}
  = [Json 400 (Error "query field required")].
Proof. reflexivity. Qed.

Example missing_credential_503 :
  @respond sampleData
    {| openai_apiKey := None;
       chat_completions_create := λ _, Ok "{}";
       JSON_parse := λ _, Ok (Obj []);
       ToNumber_other := λ _, Ok None |}
    {| query := Some "hotels in goa" |}
  = [Json 503 (Error "OPENAI_API_KEY missing")].
Proof. reflexivity. Qed.

Example malformed_output_503 :
  @respond sampleData
    {| openai_apiKey := Some "sk-test";
       chat_completions_create := λ _, Ok "Sure! Here is the filter";
       JSON_parse := λ _, Throw "Unexpected token S in JSON at position 0";
       ToNumber_other := λ _, Ok None |}
    {| query := Some "hotels in goa" |}
  = [Json 503 (Error "Unexpected token S in JSON at position 0")].
Proof. reflexivity. Qed.

(** C10. For each of [city], [hotel] and [state]: a value that is not empty
    and consists of white space only yields no token, so every text passes the
    token test, and a validated filter with such a value selects the same
    records as the filter without that key. *)
Theorem blank_text_key_is_no_constraint `{Dataset}
    (props : list (string * value)) (k s : string) :
  k ∈ ["city"; "hotel"; "state"] →
  validateFilter (Obj props) = true →
  lookupProp k props = Some (Str s) →
  s ≠ "" →
  blank s = true →
  List.filter nonEmpty (splitWhiteSpace (toLowerCase s)) = []
  ∧ (∀ text, containsAllTokens text s = true)
  ∧ applyFilter (Obj props) = applyFilter (Obj (deleteProp k props)).
Proof.
  intros Hk Hvalid Hs _ Hblank. split_and!.
  - unfold splitWhiteSpace. rewrite toLowerCase_blank by done. by apply splitGo_blank.
  - intros text. by apply containsAllTokens_blank.
  - rewrite !applyFilter_validated by (done || by apply validateFilter_deleteProp).
    f_equal. apply filter_ext_on. intros r _. unfold satisfiesWith.
    rewrite !textConstraint_deleteProp, !numberConstraint_deleteProp.
    rewrite !elem_of_cons, elem_of_nil in Hk.
    destruct Hk as [->|[->|[->|[]]]]; simpl;
      match goal with
      | |- context [textConstraint props ?k ?p r] =>
          match type of Hs with
          | lookupProp k _ = _ =>
              replace (textConstraint props k p r) with true; [done|];
              unfold textConstraint; rewrite Hs; symmetry;
              by apply containsAllTokens_blank
          end
      end.
Qed.

Lemma blank_text_key_is_no_constraint_witness :
  List.filter nonEmpty (splitWhiteSpace (toLowerCase "   ")) = []
  ∧ (∀ text, containsAllTokens text "   " = true)
  ∧ @applyFilter sampleData (Obj [("city", Str "   "); ("state", Str "goa")])
    = @applyFilter sampleData (Obj (deleteProp "city" [("city", Str "   "); ("state", Str "goa")])).
Proof.
  apply (@blank_text_key_is_no_constraint sampleData
           [("city", Str "   "); ("state", Str "goa")] "city" "   ");
    [key_solver | reflexivity | reflexivity | discriminate | reflexivity].
Defined.

(** ** Further examples from the specification's testable properties *)

Example token_and_ex1 : containsAllTokens "New Delhi" "new delhi" = true.
Proof. reflexivity. Qed.

Example token_and_ex2 : containsAllTokens "New Delhi" "delhi old" = false.
Proof. reflexivity. Qed.

Example alias_inferred_ex1 :
  @queryToFilter sampleData (scripted "{}" (Obj [])) "hotels in Bangalore under 30k"
  = Ok (Obj [("city", Str "bengaluru")]).
Proof. vm_compute. reflexivity. Qed.

Example small_bound_ex1 :
  @queryToFilter sampleData (scripted "{}" (Obj [("maxPtsNight", Num (Qc_of_Z 5))]))
    "a stay for 5 nights"
  = Ok (Obj []).
Proof. vm_compute. reflexivity. Qed.

Example nearestWords_ex1 :
  map (test nearestWords) ["Closest to the airport"; "the NEAREST one"; "nearestby"; "near"]
  = [true; true; false; false].
Proof. reflexivity. Qed.

(** * Further properties of the code *)

(** ** More on strings *)

Section MoreStrings.

Lemma lowerChar_idempotent (c : ascii) : lowerChar (lowerChar c) = lowerChar c.
Proof. destruct c as [[] [] [] [] [] [] [] []]; vm_compute; reflexivity. Qed.

Lemma toLowerCase_idempotent (s : string) : toLowerCase (toLowerCase s) = toLowerCase s.
Proof. induction s as [|c s IH]; simpl; [done|]. by rewrite lowerChar_idempotent, IH. Qed.

Lemma app_cons (c : ascii) (a b : string) : String c a +:+ b = String c (a +:+ b).
Proof. reflexivity. Qed.

Lemma app_nil_l (b : string) : "" +:+ b = b.
Proof. reflexivity. Qed.

Lemma toLowerCase_app (a b : string) :
  toLowerCase (a +:+ b) = toLowerCase a +:+ toLowerCase b.
Proof.
  induction a as [|c a IH]; [done|]. rewrite app_cons. simpl. by rewrite IH, app_cons.
Qed.

Lemma app_assoc_string (a b c : string) : (a +:+ b) +:+ c = a +:+ (b +:+ c).
Proof. induction a as [|x a IH]; [done|]. by rewrite !app_cons, IH. Qed.

Lemma app_empty_r (a : string) : a +:+ "" = a.
Proof. induction a as [|x a IH]; [done|]. by rewrite app_cons, IH. Qed.

Lemma occursIn_refl (s : string) : occursIn s s.
Proof. exists "", "". by rewrite app_nil_l, app_empty_r. Qed.

Lemma occursIn_trans (a b c : string) : occursIn a b → occursIn b c → occursIn a c.
Proof.
  intros (p1 & q1 & ->) (p2 & q2 & ->). exists (p2 +:+ p1), (q1 +:+ q2).
  by rewrite !app_assoc_string.
Qed.

(** Every piece of a split occurs in the text that was split. *)
Lemma splitGo_occurs (inSep : bool) (cur s tok : string) :
  tok ∈ splitGo inSep cur s → occursIn tok (cur +:+ s).
Proof.
  revert inSep cur. induction s as [|c s IH]; intros inSep cur; simpl.
  - intros ->%list_elem_of_singleton. rewrite app_empty_r. apply occursIn_refl.
  - destruct (isWhiteSpace c).
    + assert (Hrest : tok ∈ splitGo true "" s → occursIn tok (cur +:+ String c s)).
      { intros (p & q & Hs)%IH. rewrite app_nil_l in Hs. exists (cur +:+ String c p), q.
        by rewrite app_assoc_string, app_cons, Hs. }
      destruct inSep; [done|].
      intros [->|?]%elem_of_cons; [|auto].
      exists "", (String c s). by rewrite app_nil_l.
    + intros (p & q & Hs)%IH. exists p, q.
      by rewrite <- Hs, app_assoc_string, app_cons, app_nil_l.
Qed.

(** A space between two queries joins their tokens. *)
Lemma splitGo_space (inSep : bool) (cur a b : string) :
  (inSep = true → cur = "") →
  List.filter nonEmpty (splitGo inSep cur (a +:+ String " " b))
  = (List.filter nonEmpty (splitGo inSep cur a)
     ++ List.filter nonEmpty (splitGo false "" b))%list.
Proof.
  assert (Hlead : List.filter nonEmpty (splitGo true "" b)
                  = List.filter nonEmpty (splitGo false "" b)).
  { destruct b as [|c b]; simpl; [done|]. by destruct (isWhiteSpace c). }
  revert inSep cur. induction a as [|c a IH]; intros inSep cur Hinv.
  - rewrite app_nil_l. simpl. destruct inSep; [by rewrite Hinv|]. simpl.
    rewrite Hlead. by destruct cur.
  - rewrite app_cons. simpl. destruct (isWhiteSpace c).
    + destruct inSep; simpl; [by apply IH|].
      destruct (nonEmpty cur); simpl; by rewrite IH.
    + by apply IH.
Qed.

Lemma contains_occurs (h n : string) :
  contains h n = true ↔ occursIn (toLowerCase n) (toLowerCase h).
Proof. apply includes_occurs. Qed.

End MoreStrings.

(** ** Locale tables *)

(** X1. [canonicalCity] is idempotent on city names: for a name whose
    lower-case form is not a property of [Object.prototype], the result is a
    string on which a second call changes nothing; it is the name itself when
    no alias matches, and otherwise one of the four canonical names. *)
Theorem canonicalCity_idempotent (s : string) :
  toLowerCase s ≠ "constructor" →
  toLowerCase s ≠ "__proto__" →
  ∃ c,
    canonicalCity (Str s) = Ok (Str c)
    ∧ canonicalCity (Str c) = Ok (Str c)
    ∧ (assoc (toLowerCase s) cityAliases = None → c = s)
    ∧ (is_Some (assoc (toLowerCase s) cityAliases) →
       c ∈ ["bengaluru"; "mumbai"; "new delhi"; "gurgaon"]).
Proof.
  intros Hc Hp. unfold canonicalCity, cityAliases_get.
  destruct (assoc (toLowerCase s) cityAliases) as [c|] eqn:Halias.
  - exists c. unfold cityAliases in Halias. simpl in Halias.
    repeat case_bool_decide; simplify_eq;
      (split_and!; [reflexivity | reflexivity | done | intros _; key_solver]).
  - exists s. rewrite Halias.
    rewrite !(bool_decide_eq_false_2 (toLowerCase s = "constructor")) by done.
    rewrite !(bool_decide_eq_false_2 (toLowerCase s = "__proto__")) by done.
    split_and!; [done..|by intros [? ?]].
Qed.

Lemma canonicalCity_idempotent_witness :
  ∃ c,
    canonicalCity (Str "Bombay") = Ok (Str c)
    ∧ canonicalCity (Str c) = Ok (Str c)
    ∧ (assoc (toLowerCase "Bombay") cityAliases = None → c = "Bombay")
    ∧ (is_Some (assoc (toLowerCase "Bombay") cityAliases) →
       c ∈ ["bengaluru"; "mumbai"; "new delhi"; "gurgaon"]).
Proof. apply (canonicalCity_idempotent "Bombay"); discriminate. Defined.

Example canonicalCity_prototype :
  canonicalCity (Str "Constructor") = Ok (Native "Object").
Proof. reflexivity. Qed.

(** X2. The city-inference fallback never replaces a city the filter has;
    when the filter has none and no alias occurs in the lower-cased query it
    leaves the filter as it is; otherwise it sets [city] to the canonical name
    of an alias that occurs in the lower-cased query, the first one in the
    order of the table. *)
Theorem inferCity_first_alias (q : string) (props : list (string * value)) :
  ∃ out,
    inferCity q (Obj props) = Ok (Obj out)
    ∧ (truthy' (lookupProp "city" props) = true → out = props)
    ∧ (truthy' (lookupProp "city" props) = false →
       ((∀ alias, alias ∈ cityAliases.*1 → ¬ occursIn alias (toLowerCase q)) →
        out = props)
       ∧ ((∃ alias, alias ∈ cityAliases.*1 ∧ occursIn alias (toLowerCase q)) →
          ∃ before alias canonical after,
            cityAliases = (before ++ (alias, canonical) :: after)%list
            ∧ occursIn alias (toLowerCase q)
            ∧ (∀ earlier, earlier ∈ before.*1 → ¬ occursIn earlier (toLowerCase q))
            ∧ out = assignProp "city" (Str canonical) props)).
Proof.
  unfold inferCity, get, mbind, result_bind, bind.
  destruct (truthy' (lookupProp "city" props)); [by exists props|].
  generalize cityAliases. intros table.
  assert (Hfind :
    (List.find (λ entry, includes (toLowerCase q) entry.1) table = None
     ∧ ∀ alias, alias ∈ table.*1 → ¬ occursIn alias (toLowerCase q))
    ∨ ∃ before alias canonical after,
        List.find (λ entry, includes (toLowerCase q) entry.1) table
        = Some (alias, canonical)
        ∧ table = (before ++ (alias, canonical) :: after)%list
        ∧ occursIn alias (toLowerCase q)
        ∧ ∀ earlier, earlier ∈ before.*1 → ¬ occursIn earlier (toLowerCase q)).
  { induction table as [|[a c] table IH]; simpl.
    - left. split; [done|]. by inversion 1.
    - destruct (includes (toLowerCase q) a) eqn:Ha.
      + right. exists [], a, c, table. split_and!; [done..| |by inversion 1].
        by apply includes_occurs.
      + assert (Hna : ¬ occursIn a (toLowerCase q))
          by (rewrite <- includes_occurs; congruence).
        destruct IH as [[Hnone Hall]|(before & a' & c' & after & Hf & -> & Ho & Hb)].
        * left. split; [done|]. intros alias [->|?]%elem_of_cons; auto.
        * right. exists ((a, c) :: before), a', c', after. split_and!; [done..|].
          intros earlier [->|?]%elem_of_cons; auto. }
  destruct Hfind as [[-> Hall]|(before & a & c & after & -> & Htable & Ho & Hb)].
  - exists props. split_and!; [done|done|]. intros _. split; [done|].
    intros (alias & Hin & Hocc). by destruct (Hall alias Hin).
  - exists (assignProp "city" (Str c) props). split_and!; [done|done|].
    intros _. split.
    + intros Hall. destruct (Hall a); [|done]. rewrite Htable, fmap_app. simpl.
      apply elem_of_app. right. left.
    + intros _. by exists before, a, c, after.
Qed.

Example inferCity_ex1 :
  inferCity "Hotels in BOMBAY please" (Obj [("brand", Str "westin")])
  = Ok (Obj [("brand", Str "westin"); ("city", Str "mumbai")]).
Proof. reflexivity. Qed.

Example inferCity_ex2 :
  inferCity "hotels in bombay" (Obj [("city", Str "Pune")]) = Ok (Obj [("city", Str "Pune")]).
Proof. reflexivity. Qed.

(** ** Text matching *)

(** X3. Token-AND matching of two queries joined by a space is the
    conjunction of matching each: [containsAllTokens text (a + " " + b)] holds
    exactly when it holds for [a] and for [b]; so the order of the words of a
    query does not matter. *)
Theorem containsAllTokens_joined (text a b : string) :
  containsAllTokens text (a +:+ String " " b)
  = containsAllTokens text a && containsAllTokens text b
  ∧ containsAllTokens text (a +:+ String " " b)
    = containsAllTokens text (b +:+ String " " a).
Proof.
  assert (Hjoin : ∀ x y, containsAllTokens text (x +:+ String " " y)
                         = containsAllTokens text x && containsAllTokens text y).
  { intros x y. unfold containsAllTokens, splitWhiteSpace.
    rewrite toLowerCase_app.
    change (toLowerCase (String " " y)) with (String " " (toLowerCase y)).
    rewrite splitGo_space by done. apply forallb_app. }
  split; [apply Hjoin|]. rewrite !Hjoin. apply andb_comm.
Qed.

(** X4. [contains] ignores the case of both arguments, holds of a text and
    itself, and is transitive. *)
Theorem contains_case_insensitive (h n : string) :
  contains (toLowerCase h) n = contains h n
  ∧ contains h (toLowerCase n) = contains h n
  ∧ contains h h = true
  ∧ (∀ m, contains h m = true → contains m n = true → contains h n = true).
Proof.
  unfold contains. rewrite !toLowerCase_idempotent. split_and!; [done..| |].
  - apply includes_occurs, occursIn_refl.
  - intros m. rewrite !includes_occurs. intros H1 H2. by eapply occursIn_trans.
Qed.

(** X6. A state name moved out of [city] always finds a record: when the
    lower-cased [s] is a known state, the corrected filter for [{"city": s}] is
    [{"state": s}], it passes the schema, and [applyFilter] of it returns at
    least one record. *)
Theorem corrected_state_matches_a_record `{Dataset} (s : string) :
  toLowerCase s ∈ knownStates →
  correctState (Obj [("city", Str s)]) = Ok (Obj [("state", Str s)])
  ∧ validateFilter (Obj [("state", Str s)]) = true
  ∧ ∃ r out, applyFilter (Obj [("state", Str s)]) = Ok out ∧ r ∈ out.
Proof.
  intros Hknown. split_and!.
  - by rewrite (correctState_moves [("city", Str s)] s).
  - reflexivity.
  - pose proof Hknown as Hk. unfold knownStates in Hk.
    rewrite elem_of_list_to_set, elem_of_filter, list_elem_of_fmap in Hk.
    destruct Hk as [(r & Heq & Hr) _]. exists r.
    rewrite (applyFilter_validated [("state", Str s)]) by reflexivity.
    eexists. split; [done|]. apply elem_of_filter. split; [done|].
    unfold satisfiesWith, textConstraint, numberConstraint. simpl.
    rewrite !andb_true_r. unfold stateMatches, containsAllTokens.
    apply forallb_forall. intros tok [Htok _]%filter_In.
    apply includes_occurs. rewrite <- Heq.
    apply list_elem_of_In, splitGo_occurs in Htok. by rewrite app_nil_l in Htok.
Qed.

Lemma corrected_state_matches_a_record_witness :
  @correctState sampleData (Obj [("city", Str "Haryana")]) = Ok (Obj [("state", Str "Haryana")])
  ∧ validateFilter (Obj [("state", Str "Haryana")]) = true
  ∧ ∃ r out, @applyFilter sampleData (Obj [("state", Str "Haryana")]) = Ok out ∧ r ∈ out.
Proof.
  apply (@corrected_state_matches_a_record sampleData "Haryana").
  by apply (bool_decide_unpack _).
Defined.

(** ** Post-processing *)

(** An array that is in order already is returned as it is. *)
Lemma sort_sorted {A} (cmp : A → A → Qc) (l : list A) :
  StronglySorted (JS.notAfter cmp) l → JS.sort cmp l = l.
Proof.
  induction 1 as [|x l Hs IH Hall]; simpl; [done|]. rewrite IH.
  destruct l as [|y l]; simpl; [done|].
  inversion_clear Hall as [|? ? Hxy _]. unfold JS.notAfter in Hxy.
  rewrite bool_decide_eq_false_2; [done|]. by apply Qcle_not_lt.
Qed.



(** X8. The nearest step returns the closest records: the records at a
    positive distance split into the ones returned and the rest, no returned
    record is farther than a record of the rest, and the number returned is
    five or, when fewer than five records have a positive distance, the
    number of those. *)
Theorem nearest_are_the_closest (data : list HotelRecord) :
  ∃ rest,
    (nearest data ++ rest)%list
    ≡ₚ List.filter (λ r, bool_decide (0 < DistanceKmFromAirport r)) data
    ∧ (∀ r r', r ∈ nearest data → r' ∈ rest →
               DistanceKmFromAirport r ≤ DistanceKmFromAirport r')
    ∧ length (nearest data)
      = Nat.min 5 (length (List.filter (λ r, bool_decide (0 < DistanceKmFromAirport r)) data)).
Proof.
  unfold nearest.
  set (positive := List.filter (λ r, bool_decide (0 < DistanceKmFromAirport r)) data).
  set (cmp := λ a b : HotelRecord, DistanceKmFromAirport a - DistanceKmFromAirport b).
  exists (drop 5 (JS.sort cmp positive)). split_and!.
  - by rewrite take_drop, sort_Permutation.
  - intros r r' Hr Hr'. apply minus_nonpos.
    apply (StronglySorted_app_1_elem_of (JS.notAfter cmp)
             (take 5 (JS.sort cmp positive)) (drop 5 (JS.sort cmp positive))); [|done..].
    rewrite take_drop. apply distance_order_sorted.
  - by rewrite length_take, (Permutation_length (sort_Permutation cmp positive)).
Qed.

(** X9. The nearest step applied to its own result changes nothing. *)
Theorem nearest_idempotent (data : list HotelRecord) :
  nearest (nearest data) = nearest data.
Proof.
  unfold nearest at 1.
  rewrite forallb_filter_id.
  - rewrite sort_sorted.
    + apply take_ge, nearest_length.
    + unfold nearest. eapply StronglySorted_sublist; [apply sublist_take|].
      apply distance_order_sorted.
  - apply forallb_forall. intros r Hr%list_elem_of_In.
    pose proof (nearest_positive data) as Hpos. rewrite Forall_forall in Hpos.
    by apply bool_decide_eq_true_2, Hpos.
Qed.

(** ** The filter applier *)

Lemma filter_sublist_impl {A} (f g : A → bool) (l : list A) :
  (∀ x, f x = true → g x = true) → List.filter f l `sublist_of` List.filter g l.
Proof.
  intros Hfg. induction l as [|x l IH]; simpl; [constructor|].
  destruct (f x) eqn:Hf.
  - rewrite (Hfg x Hf). by constructor.
  - destruct (g x); [by constructor | done].
Qed.

(** With distinct keys, the value under a key does not depend on the order of
    the properties. *)
Lemma lookupProp_Permutation (k : string) (props props' : list (string * value)) :
  NoDup props.*1 → props ≡ₚ props' → lookupProp k props = lookupProp k props'.
Proof.
  intros Hnd Hperm. induction Hperm as [|[k0 v0] l l' Hp IH|[k0 v0] [k1 v1] l|l l' l'' H1 IH1 H2 IH2].
  - done.
  - simpl. apply NoDup_cons in Hnd as [_ Hnd]. by rewrite IH.
  - simpl. apply NoDup_cons in Hnd as [Hne _].
    repeat case_bool_decide; simplify_eq; try done.
    exfalso. apply Hne. left.
  - rewrite IH1 by done. apply IH2. by rewrite <- H1.
Qed.

(** X10. Removing a key from a validated filter never loses a record: the
    result of the filter is a subsequence of the result of the filter without
    the key. *)
Theorem removing_a_key_widens `{Dataset} (props : list (string * value)) (k : string) :
  validateFilter (Obj props) = true →
  ∃ out wider,
    applyFilter (Obj props) = Ok out
    ∧ applyFilter (Obj (deleteProp k props)) = Ok wider
    ∧ out `sublist_of` wider.
Proof.
  intros Hvalid. eexists _, _.
  rewrite !applyFilter_validated by (done || by apply validateFilter_deleteProp).
  split_and!; [done..|]. apply filter_sublist_impl. intros r.
  unfold satisfiesWith.
  rewrite !textConstraint_deleteProp, !numberConstraint_deleteProp, !andb_true_iff.
  intros; destruct_and!; split_and!; by case_bool_decide.
Qed.

Lemma removing_a_key_widens_witness :
  ∃ out wider,
    @applyFilter sampleData (Obj [("state", Str "haryana"); ("brand", Str "westin")]) = Ok out
    ∧ @applyFilter sampleData
        (Obj (deleteProp "brand" [("state", Str "haryana"); ("brand", Str "westin")]))
      = Ok wider
    ∧ out `sublist_of` wider.
Proof. apply (@removing_a_key_widens sampleData). reflexivity. Defined.

(** X11. The order of the keys of a filter is irrelevant: two objects with
    the same properties in different orders (no key twice) are accepted or
    rejected alike by the schema and select the same records. *)
Theorem key_order_is_irrelevant `{Dataset} (props props' : list (string * value)) :
  NoDup props.*1 →
  props ≡ₚ props' →
  validateFilter (Obj props) = validateFilter (Obj props')
  ∧ applyFilter (Obj props) = applyFilter (Obj props').
Proof.
  intros Hnd Hperm.
  assert (Hlook : ∀ k, lookupProp k props = lookupProp k props')
    by (intros k; by apply lookupProp_Permutation).
  split; [|apply applyFilter_ext; auto].
  assert (Hacc : accepts (λ _, True) props ↔ accepts (λ _, True) props').
  { unfold accepts. setoid_rewrite Hlook.
    assert (Hkeys : ∀ k, k ∈ props.*1 ↔ k ∈ props'.*1)
      by (intros k; by rewrite Hperm).
    by setoid_rewrite Hkeys. }
  rewrite <- !validateFilter_accepts in Hacc.
  destruct (validateFilter (Obj props)), (validateFilter (Obj props')); try done.
  - symmetry. by apply Hacc.
  - by apply Hacc.
Qed.

Lemma key_order_is_irrelevant_witness :
  validateFilter (Obj [("state", Str "haryana"); ("brand", Str "westin")])
  = validateFilter (Obj [("brand", Str "westin"); ("state", Str "haryana")])
  ∧ @applyFilter sampleData (Obj [("state", Str "haryana"); ("brand", Str "westin")])
    = @applyFilter sampleData (Obj [("brand", Str "westin"); ("state", Str "haryana")]).
Proof.
  apply (@key_order_is_irrelevant sampleData).
  - by apply (bool_decide_unpack _).
  - apply perm_swap.
Defined.

(** X12. Contradictory point bounds select nothing: a validated filter whose
    [minPtsNight] exceeds its [maxPtsNight] returns no record, whatever its
    other keys. *)
Theorem contradictory_bounds_select_nothing `{Dataset}
    (props : list (string * value)) (lo hi : Qc) :
  validateFilter (Obj props) = true →
  lookupProp "minPtsNight" props = Some (Num lo) →
  lookupProp "maxPtsNight" props = Some (Num hi) →
  hi < lo →
  applyFilter (Obj props) = Ok [].
Proof.
  intros Hvalid Hlo Hhi Hlt. rewrite applyFilter_validated by done. f_equal.
  induction records as [|r rs IH]; simpl; [done|]. rewrite IH.
  replace (satisfiesWith measuredWithin props r) with false; [done|].
  symmetry. apply not_true_is_false. unfold satisfiesWith, numberConstraint.
  rewrite Hlo, Hhi, !andb_true_iff. unfold atMostPoints, atLeastPoints.
  rewrite !bool_decide_eq_true. intros [[[_ Hmax] Hmin] _].
  apply (Qclt_not_le _ _ Hlt). by etrans.
Qed.

Lemma contradictory_bounds_select_nothing_witness :
  @applyFilter sampleData
    (Obj [("minPtsNight", Num (Qc_of_Z 30000)); ("maxPtsNight", Num (Qc_of_Z 20000))])
  = Ok [].
Proof.
  apply (@contradictory_bounds_select_nothing sampleData _ (Qc_of_Z 30000) (Qc_of_Z 20000));
    reflexivity.
Defined.

(** ** The translator and the handler *)

Section MorePipeline.
Context `{Dataset, Runtime}.
Implicit Types (k q : string) (props raw : list (string * value)) (v out : value).

(** On a value that is not an object the corrections change nothing. *)
Lemma correct_not_object q v out :
  (∀ props, v ≠ Obj props) → correct q v = Ok out → out = v.
Proof.
  intros Hv. unfold correct, canonicaliseCity, correctState, inferCity, dropSmallPoints,
    mbind, result_bind, bind.
  destruct v as [| | | | |props|]; try done; [..|by destruct (Hv props)|];
    unfold get, JS.set, truthy';
    match goal with
    | |- context [List.find ?f cityAliases] => destruct (List.find f cityAliases) as [[? ?]|]
    end; try done; by intros [= <-].
Qed.

Lemma postProcess_submseteq q (data : list HotelRecord) : postProcess q data ⊆+ data.
Proof.
  unfold postProcess.
  assert (Hc : (if test cheapestWords q then cheapest data else data) ⊆+ data).
  { destruct (test cheapestWords q); [|done].
    rewrite cheapest_isCheapestOf. apply sublist_submseteq, filter_sublist. }
  destruct (test nearestWords q); [|done]. etrans; [apply nearest_submseteq | done].
Qed.

(** What the numeric-sanity correction does with any value. *)
Lemma dropSmallPoints_value k props v (small : bool) :
  lookupProp k props = Some v →
  lessThan v (Qc_of_Z 1000) = Ok small →
  dropSmallPoints k (Obj props) = Ok (Obj (if small then deleteProp k props else props)).
Proof.
  intros Hv Hsmall. unfold dropSmallPoints, get, mbind, result_bind, bind.
  rewrite Hv. unfold mbind, result_bind, bind in Hsmall |- *. rewrite Hsmall.
  by destruct small.
Qed.

Lemma dropSmallPoints_absent k props :
  lookupProp k props = None → dropSmallPoints k (Obj props) = Ok (Obj props).
Proof. intros Hv. unfold dropSmallPoints, get, mbind, result_bind, bind. by rewrite Hv. Qed.

Lemma correct_bound q raw props k v (small : bool) :
  k ∈ ["maxPtsNight"; "minPtsNight"] →
  correct q (Obj raw) = Ok (Obj props) →
  lookupProp k raw = Some v →
  lessThan v (Qc_of_Z 1000) = Ok small →
  lookupProp k props = if small then None else Some v.
Proof.
  intros Hk Hcorrect Hv Hsmall. revert Hcorrect.
  unfold correct, mbind, result_bind, bind.
  destruct (canonicaliseCity (Obj raw)) as [f1|] eqn:H1; [|done].
  apply canonicaliseCity_Obj in H1 as (p1 & -> & A1).
  destruct (correctState (Obj p1)) as [f2|] eqn:H2; [|done].
  apply correctState_Obj in H2 as (p2 & -> & A2).
  destruct (inferCity q (Obj p2)) as [f3|] eqn:H3; [|done].
  apply inferCity_Obj in H3 as (p3 & -> & A3).
  assert (Hp3 : ∀ k', k' ∈ ["maxPtsNight"; "minPtsNight"] →
                      lookupProp k' p3 = lookupProp k' raw).
  { intros k' Hk'. rewrite !elem_of_cons, elem_of_nil in Hk'.
    destruct Hk' as [->|[->|[]]]; rewrite A3, A2, A1; done || key_solver. }
  rewrite !elem_of_cons, elem_of_nil in Hk. destruct Hk as [->|[->|[]]].
  - rewrite (dropSmallPoints_value "maxPtsNight" p3 v small)
      by (done || by rewrite Hp3 by key_solver).
    intros (p5 & [= ->] & A5 & _)%dropSmallPoints_Obj.
    rewrite A5 by key_solver. destruct small; [|by rewrite Hp3 by key_solver].
    by rewrite lookupProp_deleteProp, bool_decide_eq_true_2.
  - destruct (dropSmallPoints "maxPtsNight" (Obj p3)) as [f4|] eqn:H4; [|done].
    apply dropSmallPoints_Obj in H4 as (p4 & -> & A4 & _).
    assert (Hp4 : lookupProp "minPtsNight" p4 = Some v)
      by (rewrite A4 by key_solver; by rewrite Hp3 by key_solver).
    rewrite (dropSmallPoints_value "minPtsNight" p4 v small) by done.
    intros [= <-]. destruct small; [|done].
    by rewrite lookupProp_deleteProp, bool_decide_eq_true_2.
Qed.

End MorePipeline.

(** X13. The translator touches four keys only: every other key of the
    model's output, declared or not, reaches the corrected filter with the
    value the model gave it, and a key the model did not give is not added. *)
Theorem translator_leaves_other_keys `{Dataset, Runtime}
    (q content : string) (raw : list (string * value)) (out : value) :
  chat_completions_create q = Ok content →
  JSON_parse (trim content) = Ok (Obj raw) →
  queryToFilter q = Ok out →
  ∃ props,
    out = Obj props
    ∧ ∀ k, k ∉ ["city"; "state"; "maxPtsNight"; "minPtsNight"] →
           lookupProp k props = lookupProp k raw.
Proof.
  intros Hchat Hparse. unfold queryToFilter.
  destruct hasApiKey; simpl; [|done]. rewrite Hchat. simpl. rewrite Hparse. simpl.
  intros (props & -> & Hagree & _)%correct_Obj. by exists props.
Qed.

Lemma translator_leaves_other_keys_witness :
  ∃ props,
    Obj [("brand", Str "Westin"); ("country", Str "India"); ("city", Str "new delhi")]
    = Obj props
    ∧ ∀ k, k ∉ ["city"; "state"; "maxPtsNight"; "minPtsNight"] →
           lookupProp k props
           = lookupProp k [("brand", Str "Westin"); ("country", Str "India");
                           ("maxPtsNight", Num (Qc_of_Z 5))].
Proof.
  apply (@translator_leaves_other_keys sampleData
           (scripted "{}" (Obj [("brand", Str "Westin"); ("country", Str "India");
                                ("maxPtsNight", Num (Qc_of_Z 5))]))
           "westin in delhi for 5 nights" "{}");
    [reflexivity | reflexivity | vm_compute; reflexivity].
Defined.

(** X14. A key outside the seven in the model's output always ends in a 422:
    when the translator returns, the handler answers with the
    additional-property error of a key outside the seven, and never with
    records. *)
Theorem unknown_key_is_rejected `{Dataset, Runtime}
    (q content : string) (raw : list (string * value)) (translated : value) (k : string) :
  nonEmpty q = true →
  chat_completions_create q = Ok content →
  JSON_parse (trim content) = Ok (Obj raw) →
  k ∈ raw.*1 →
  k ∉ whitelist →
  queryToFilter q = Ok translated →
  ∃ k',
    (k' ∉ whitelist)
    ∧ respond {| query := Some q |}
      = [Json 422 (InvalidFilter "invalid filter generated" [Ajv.AdditionalProperty k'])].
Proof.
  intros Hq Hchat Hparse Hk Hnot Htr.
  assert (∃ props, translated = Obj props ∧ is_Some (lookupProp k props))
    as (props & -> & Hprops).
  { revert Htr. unfold queryToFilter.
    destruct hasApiKey; simpl; [|done]. rewrite Hchat. simpl. rewrite Hparse. simpl.
    intros (props & -> & Hagree & _)%correct_Obj. exists props. split; [done|].
    rewrite Hagree; [by apply lookupProp_key|].
    intros Hin. apply Hnot. unfold whitelist, textKeys, numericKeys.
    rewrite !elem_of_cons, elem_of_nil in Hin. simpl. rewrite !elem_of_cons.
    intuition auto. }
  set (filter := if test nearestWords q then deleteProp "maxDistanceKm" props else props).
  assert (Hcap : ignoreDistanceCap (test nearestWords q) (Obj props) = Ok (Obj filter))
    by (unfold ignoreDistanceCap, filter; by destruct (test nearestWords q)).
  assert (Hkey : k ∈ filter.*1).
  { destruct Hprops as [v Hv]. apply (lookupProp_Some_key k v). unfold filter.
    destruct (test nearestWords q); [|done].
    rewrite lookupProp_deleteProp, bool_decide_eq_false_2; [done|].
    intros <-. apply Hnot. key_solver. }
  destruct (Ajv.firstAdditional filterSchema filter) as [k'|] eqn:Hadd.
  - apply firstAdditional_Some in Hadd as Hk'. destruct Hk' as [_ Hundeclared].
    exists k'. split; [intros Hin%declared_whitelist; congruence|].
    rewrite respond_outcome. unfold outcome. simpl. rewrite Hq, Htr, Hcap.
    unfold validateFilter, validateFilter_errors, Ajv.compile, Ajv.errors.
    change (Ajv.additionalProperties filterSchema) with false. cbv iota.
    by rewrite Hadd.
  - rewrite firstAdditional_None in Hadd. apply Hadd, declared_whitelist in Hkey. done.
Qed.

Lemma unknown_key_is_rejected_witness :
  ∃ k',
    (k' ∉ whitelist)
    ∧ @respond sampleData
        (scripted "{}" (Obj [("city", Str "Goa"); ("country", Str "India")]))
        {| query := Some "hotels in goa" |}
      = [Json 422 (InvalidFilter "invalid filter generated" [Ajv.AdditionalProperty k'])].
Proof.
  apply (@unknown_key_is_rejected sampleData
           (scripted "{}" (Obj [("city", Str "Goa"); ("country", Str "India")]))
           "hotels in goa" "{}" [("city", Str "Goa"); ("country", Str "India")]
           (Obj [("country", Str "India"); ("state", Str "Goa")]) "country");
    [reflexivity | reflexivity | reflexivity | key_solver | key_solver
    | vm_compute; reflexivity].
Defined.

(** X15. A [city] that is truthy but not a string makes the translator throw
    while canonicalising, so the handler answers 503 with the message of the
    error ([err.message]) instead of the schema's 422. *)
Theorem non_string_city_is_a_503 `{Dataset, Runtime}
    (q content : string) (raw : list (string * value)) (v : value) :
  nonEmpty q = true →
  hasApiKey = true →
  chat_completions_create q = Ok content →
  JSON_parse (trim content) = Ok (Obj raw) →
  lookupProp "city" raw = Some v →
  truthy v = true →
  (∀ s, v ≠ Str s) →
  queryToFilter q = Throw "name.toLowerCase is not a function"
  ∧ respond {| query := Some q |}
    = [Json 503 (Error "name.toLowerCase is not a function")].
Proof.
  intros Hq Hkey Hchat Hparse Hcity Htruthy Hv.
  assert (Htr : queryToFilter q = Throw "name.toLowerCase is not a function").
  { unfold queryToFilter. rewrite Hkey. simpl. rewrite Hchat. simpl. rewrite Hparse. simpl.
    unfold correct, canonicaliseCity, get, mbind, result_bind, bind.
    rewrite Hcity, Htruthy. destruct v; try done. by destruct (Hv s). }
  split; [done|]. rewrite respond_outcome. unfold outcome. simpl. by rewrite Hq, Htr.
Qed.

Lemma non_string_city_is_a_503_witness :
  @queryToFilter sampleData (scripted "{}" (Obj [("city", Num (Qc_of_Z 7))])) "hotels in goa"
  = Throw "name.toLowerCase is not a function"
  ∧ @respond sampleData (scripted "{}" (Obj [("city", Num (Qc_of_Z 7))]))
      {| query := Some "hotels in goa" |}
    = [Json 503 (Error "name.toLowerCase is not a function")].
Proof.
  apply (@non_string_city_is_a_503 sampleData (scripted "{}" (Obj [("city", Num (Qc_of_Z 7))]))
           "hotels in goa" "{}" [("city", Num (Qc_of_Z 7))] (Num (Qc_of_Z 7)));
    try reflexivity; done.
Defined.

(** X16. A model output that is valid JSON but not an object never yields
    records: the handler answers 503 when the translator throws on it (as it
    does on [null]) and otherwise 422 with the error that the data must be an
    object. *)
Theorem non_object_output_yields_no_records `{Dataset, Runtime}
    (q content : string) (v : value) :
  nonEmpty q = true →
  chat_completions_create q = Ok content →
  JSON_parse (trim content) = Ok v →
  (∀ props, v ≠ Obj props) →
  ((∃ message, respond {| query := Some q |} = [Json 503 (Error message)])
   ∨ respond {| query := Some q |}
     = [Json 422 (InvalidFilter "invalid filter generated"
                    [Ajv.WrongType "" Ajv.TObject])])
  ∧ (v = Null → ∃ message, respond {| query := Some q |} = [Json 503 (Error message)]).
Proof.
  intros Hq Hchat Hparse Hv. rewrite respond_outcome. unfold outcome. simpl. rewrite Hq.
  destruct (queryToFilter q) as [out|message] eqn:Htr.
  - assert (out = v) as ->.
    { revert Htr. unfold queryToFilter. destruct hasApiKey; simpl; [|done].
      rewrite Hchat. simpl. rewrite Hparse. simpl. by apply correct_not_object. }
    apply queryToFilter_not_Null in Htr as Hnn. split; [|done]. right.
    assert (Hcap : ignoreDistanceCap (test nearestWords q) v = Ok v).
    { unfold ignoreDistanceCap. destruct (test nearestWords q); [|done].
      destruct v; try done. by destruct (Hv props). }
    rewrite Hcap. destruct v; try done. by destruct (Hv props).
  - split; [left|intros _]; by exists message.
Qed.

Lemma non_object_output_yields_no_records_witness :
  ((∃ message,
      @respond sampleData (scripted "[]" (Arr [])) {| query := Some "hotels in goa" |}
      = [Json 503 (Error message)])
   ∨ @respond sampleData (scripted "[]" (Arr [])) {| query := Some "hotels in goa" |}
     = [Json 422 (InvalidFilter "invalid filter generated"
                    [Ajv.WrongType "" Ajv.TObject])])
  ∧ (Arr [] = Null →
     ∃ message,
       @respond sampleData (scripted "[]" (Arr [])) {| query := Some "hotels in goa" |}
       = [Json 503 (Error message)]).
Proof.
  apply (@non_object_output_yields_no_records sampleData (scripted "[]" (Arr []))
           "hotels in goa" "[]" (Arr [])); try reflexivity; done.
Defined.

(** X20. A success response invents nothing: the count is the number of
    records it carries, and those records are records of the dataset, none more
    often than the dataset holds it. *)
Theorem results_come_from_the_dataset `{Dataset, Runtime}
    (req : request) (count : nat) (data : list HotelRecord) :
  respond req = [Json 200 (Results count data)] →
  count = length data ∧ data ⊆+ records.
Proof.
  rewrite respond_outcome. unfold outcome.
  destruct (query req) as [q|]; [|done].
  destruct (nonEmpty q); simpl; [|done].
  destruct (queryToFilter q); [|done].
  destruct (ignoreDistanceCap _ _) as [filter|]; [|done].
  destruct (validateFilter filter) eqn:Hvalid; simpl; [|done].
  destruct (validateFilter_Obj _ Hvalid) as [props ->].
  rewrite (applyFilter_validated props Hvalid). intros [= <- <-]. split; [done|].
  etrans; [apply postProcess_submseteq|]. apply sublist_submseteq, filter_sublist.
Qed.

Lemma results_come_from_the_dataset_witness :
  2%nat = length [courtyardGurugram; jwAerocity]
  ∧ [courtyardGurugram; jwAerocity] ⊆+ @records sampleData.
Proof.
  apply (@results_come_from_the_dataset sampleData (scripted "{}" (Obj []))
           {| query := Some "Cheapest Marriott redemption" |}).
  vm_compute. reflexivity.
Defined.

(** X21. A point bound that is [null], [true] or [false] is dropped by the
    numeric-sanity correction (it compares as 0 or 1, below 1000), so the
    corrected filter has no such key and the schema never sees the value. *)
Theorem null_point_bound_is_dropped `{Dataset, Runtime}
    (q content : string) (raw : list (string * value)) (out v : value) (k : string) :
  k ∈ ["minPtsNight"; "maxPtsNight"] →
  v = Null ∨ (∃ b, v = Bool b) →
  lookupProp k raw = Some v →
  chat_completions_create q = Ok content →
  JSON_parse (trim content) = Ok (Obj raw) →
  queryToFilter q = Ok out →
  ∃ props, out = Obj props ∧ lookupProp k props = None.
Proof.
  intros Hk Hv Hraw Hchat Hparse. unfold queryToFilter.
  destruct hasApiKey; simpl; [|done]. rewrite Hchat. simpl. rewrite Hparse. simpl.
  intros Hcorrect. destruct (correct_Obj _ _ _ Hcorrect) as (props & -> & _).
  exists props. split; [done|].
  assert (Hk' : k ∈ ["maxPtsNight"; "minPtsNight"])
    by (rewrite !elem_of_cons in Hk |- *; tauto).
  rewrite (correct_bound q raw props k v true Hk' Hcorrect Hraw); [done|].
  destruct Hv as [->|[[] ->]]; reflexivity.
Qed.

Lemma null_point_bound_is_dropped_witness :
  ∃ props, Obj [("state", Str "Goa")] = Obj props ∧ lookupProp "maxPtsNight" props = None.
Proof.
  apply (@null_point_bound_is_dropped sampleData
           (scripted "{}" (Obj [("city", Str "Goa"); ("maxPtsNight", Null)]))
           "hotels in goa" "{}" [("city", Str "Goa"); ("maxPtsNight", Null)]
           (Obj [("state", Str "Goa")]) Null "maxPtsNight");
    [key_solver | by left | reflexivity | reflexivity | reflexivity | vm_compute; reflexivity].
Defined.

(** ** The distance cap and the nearest intent *)

Section Cap.
Context `{Dataset, Runtime}.
Implicit Types (k q : string) (props raw : list (string * value)) (v out : value).

Lemma deleteProp_assignProp k k' v props :
  k ≠ k' → deleteProp k (assignProp k' v props) = assignProp k' v (deleteProp k props).
Proof.
  intros Hne. unfold deleteProp. induction props as [|[k0 v0] props IH]; simpl.
  - by rewrite bool_decide_eq_false_2 by done.
  - destruct (decide (k0 = k')) as [->|Hk0].
    + rewrite (bool_decide_eq_true_2 (k' = k')) by done. simpl.
      rewrite (bool_decide_eq_false_2 (k' = k)) by done. simpl.
      by rewrite (bool_decide_eq_true_2 (k' = k')) by done.
    + rewrite (bool_decide_eq_false_2 (k0 = k')) by done. simpl.
      case_bool_decide; simpl; [done|].
      by rewrite (bool_decide_eq_false_2 (k0 = k')), IH by done.
Qed.

Lemma deleteProp_deleteProp k k' props :
  deleteProp k (deleteProp k' props) = deleteProp k' (deleteProp k props).
Proof.
  unfold deleteProp. rewrite !filter_filter. apply filter_ext. intros kv. apply andb_comm.
Qed.

Lemma deleteProp_idempotent k props : deleteProp k (deleteProp k props) = deleteProp k props.
Proof.
  unfold deleteProp. rewrite filter_filter. apply filter_ext. intros kv. apply andb_diag.
Qed.

Lemma canonicaliseCity_deleteProp k props :
  k ≠ "city" →
  canonicaliseCity (Obj (deleteProp k props))
  = (o ← canonicaliseCity (Obj props); JS.delete o k).
Proof.
  intros Hk. unfold canonicaliseCity, get, mbind, result_bind, bind.
  rewrite lookupProp_deleteProp, bool_decide_eq_false_2 by done.
  destruct (lookupProp "city" props) as [name|]; [|done].
  destruct (truthy name); [|done].
  destruct (canonicalCity name); [|done]. simpl.
  by rewrite (deleteProp_assignProp k "city") by done.
Qed.

Lemma correctState_deleteProp k props :
  k ≠ "city" → k ≠ "state" →
  correctState (Obj (deleteProp k props))
  = (o ← correctState (Obj props); JS.delete o k).
Proof.
  intros Hc Hs. unfold correctState, get, mbind, result_bind, bind.
  rewrite !lookupProp_deleteProp, !bool_decide_eq_false_2 by done.
  destruct (truthy' (lookupProp "city" props) && negb (truthy' (lookupProp "state" props)));
    [|done].
  destruct (lookupProp "city" props) as [[]|]; try done.
  case_bool_decide; [|done]. simpl.
  by rewrite (deleteProp_deleteProp k "city"), (deleteProp_assignProp k "state") by done.
Qed.

Lemma inferCity_deleteProp q k props :
  k ≠ "city" →
  inferCity q (Obj (deleteProp k props)) = (o ← inferCity q (Obj props); JS.delete o k).
Proof.
  intros Hk. unfold inferCity, get, mbind, result_bind, bind.
  rewrite lookupProp_deleteProp, bool_decide_eq_false_2 by done.
  destruct (truthy' (lookupProp "city" props)); [done|].
  match goal with
  | |- context [List.find ?f cityAliases] =>
      destruct (List.find f cityAliases) as [[alias canonical]|]
  end; [|done].
  unfold JS.set, JS.delete. by rewrite (deleteProp_assignProp k "city") by done.
Qed.

Lemma dropSmallPoints_deleteProp key k props :
  k ≠ key →
  dropSmallPoints key (Obj (deleteProp k props))
  = (o ← dropSmallPoints key (Obj props); JS.delete o k).
Proof.
  intros Hk. unfold dropSmallPoints, get, mbind, result_bind, bind.
  rewrite lookupProp_deleteProp, bool_decide_eq_false_2 by done.
  destruct (lookupProp key props) as [v|]; [|done].
  destruct (lessThan v (Qc_of_Z 1000)) as [[]|]; try done.
  unfold JS.delete. by rewrite (deleteProp_deleteProp k key).
Qed.

Lemma correct_deleteProp q k raw :
  k ∉ ["city"; "state"; "maxPtsNight"; "minPtsNight"] →
  correct q (Obj (deleteProp k raw)) = (o ← correct q (Obj raw); JS.delete o k).
Proof.
  intros Hk. rewrite !not_elem_of_cons in Hk. destruct Hk as (Hc & Hs & Hmax & Hmin & _).
  unfold correct. rewrite canonicaliseCity_deleteProp by done.
  unfold mbind, result_bind, bind.
  destruct (canonicaliseCity (Obj raw)) as [f1|] eqn:H1; [|done].
  apply canonicaliseCity_Obj in H1 as (p1 & -> & _). simpl.
  rewrite correctState_deleteProp by done. unfold mbind, result_bind, bind.
  destruct (correctState (Obj p1)) as [f2|] eqn:H2; [|done].
  apply correctState_Obj in H2 as (p2 & -> & _). simpl.
  rewrite inferCity_deleteProp by done. unfold mbind, result_bind, bind.
  destruct (inferCity q (Obj p2)) as [f3|] eqn:H3; [|done].
  apply inferCity_Obj in H3 as (p3 & -> & _). simpl.
  rewrite dropSmallPoints_deleteProp by done. unfold mbind, result_bind, bind.
  destruct (dropSmallPoints "maxPtsNight" (Obj p3)) as [f4|] eqn:H4; [|done].
  apply dropSmallPoints_Obj in H4 as (p4 & -> & _). simpl.
  rewrite dropSmallPoints_deleteProp by done. done.
Qed.

End Cap.

(** X17. For a query with the nearest intent the model's [maxDistanceKm] has
    no influence: the filter that is validated and applied is the one the
    pipeline would produce had the model's output not held that key, whatever
    value it holds. *)
Theorem nearest_ignores_the_cap `{Dataset, Runtime} (q : string) (raw : list (string * value)) :
  test nearestWords q = true →
  (translated ← correct q (Obj raw);
   ignoreDistanceCap (test nearestWords q) translated)
  = (translated ← correct q (Obj (deleteProp "maxDistanceKm" raw));
     ignoreDistanceCap (test nearestWords q) translated).
Proof.
  intros ->. rewrite correct_deleteProp by key_solver.
  unfold ignoreDistanceCap, mbind, result_bind, bind.
  destruct (correct q (Obj raw)) as [out|] eqn:Hcorrect; [|done].
  apply correct_Obj in Hcorrect as (props & -> & _). simpl.
  by rewrite deleteProp_idempotent.
Qed.

Lemma nearest_ignores_the_cap_witness :
  (translated ← @correct sampleData (scripted "{}" (Obj [])) "nearest hotels in delhi"
                  (Obj [("maxDistanceKm", Str "close"); ("brand", Str "westin")]);
   ignoreDistanceCap (test nearestWords "nearest hotels in delhi") translated)
  = (translated ← @correct sampleData (scripted "{}" (Obj [])) "nearest hotels in delhi"
                    (Obj (deleteProp "maxDistanceKm"
                            [("maxDistanceKm", Str "close"); ("brand", Str "westin")]));
     ignoreDistanceCap (test nearestWords "nearest hotels in delhi") translated).
Proof.
  apply (@nearest_ignores_the_cap sampleData (scripted "{}" (Obj []))). reflexivity.
Defined.

(** ** The loader's [clean] and the page *)

Lemma stripNonNumeric_app (a b : string) :
  stripNonNumeric (a +:+ b) = stripNonNumeric a +:+ stripNonNumeric b.
Proof.
  induction a as [|c a IH]; [done|]. rewrite app_cons. simpl.
  destruct (isNumericChar c); by rewrite IH.
Qed.

(** X18. [clean] reads digits and dots only: a character that is neither
    (a currency sign, a comma, a space, a minus sign) can be inserted anywhere
    in a field without changing the number loaded, so a leading minus sign is
    lost. *)
Theorem clean_ignores_other_characters `{Runtime} (pre post : string) (c : ascii) :
  isNumericChar c = false →
  clean (Some (pre +:+ String c post)) = clean (Some (pre +:+ post))
  ∧ clean (Some (String "-" post)) = clean (Some post).
Proof.
  intros Hc. unfold clean, String_. split.
  - rewrite !stripNonNumeric_app. simpl. by rewrite Hc.
  - reflexivity.
Qed.

Lemma clean_ignores_other_characters_witness :
  @clean (scripted "{}" (Obj [])) (Some ("25" +:+ String "," "000"))
  = @clean (scripted "{}" (Obj [])) (Some ("25" +:+ "000"))
  ∧ @clean (scripted "{}" (Obj [])) (Some (String "-" "000"))
    = @clean (scripted "{}" (Obj [])) (Some "000").
Proof. apply (@clean_ignores_other_characters (scripted "{}" (Obj [])) "25" "000" ","). reflexivity. Defined.

Example stripNonNumeric_ex1 : stripNonNumeric "Rs 25,000.50 approx" = "25000.50".
Proof. reflexivity. Qed.

(** X19. The page posts nothing for a blank input, and what it posts is
    never answered with the 400 of a missing query: the server's answer to a
    request of the page is a 200, a 422 or a 503. *)
Theorem page_never_gets_400 `{Dataset, Runtime} (input : string) :
  (blank input = true → submitted input = None)
  ∧ (∀ req, submitted input = Some req →
       ∃ r, respond req = [r]
            ∧ (status r = 200%nat ∨ status r = 422%nat ∨ status r = 503%nat)).
Proof.
  unfold submitted. split.
  - intros Hblank.
    assert (Hstart : ∀ s, blank s = true → trimStart s = "").
    { induction s as [|c s IH]; simpl; [done|].
      rewrite andb_true_iff. intros [-> Hs]. by apply IH. }
    unfold trim. by rewrite Hstart.
  - intros req. destruct (nonEmpty (trim input)) eqn:Hq; simpl; [|done].
    intros [= <-]. rewrite respond_outcome. eexists; split; [done|].
    unfold outcome. simpl. rewrite Hq. simpl.
    destruct (queryToFilter _); [|by right; right].
    destruct (ignoreDistanceCap _ _); [|by right; right].
    destruct (validateFilter _); simpl; [|by right; left].
    destruct (applyFilter _); [by left | by right; right].
Qed.

Example submitted_ex1 : submitted "  cheapest in goa " = Some {| query := Some "cheapest in goa" |}.
Proof. reflexivity. Qed.
